(** * PlantPalette: the [/api/plantnet] handler of [server/main.py]

    A shallow embedding of [identify_plant], the single request handler
    of the server, and the properties of its two-stage pipeline:
    normalisation of the uploads, the PlantNet call, the extraction of
    the top candidate, the confidence gate and the captioning loop. *)

From Stdlib Require Import ZArith NArith Floats Strings.Byte Ascii String List Lia.
From stdpp Require Import base option list gmap strings.

Set Warnings "-register-all,-inexact-float".

Local Open Scope string_scope.
Local Open Scope list_scope.

(** ** Values decoded from JSON

    What [r.json()] returns: Python's [None], [bool], [int], [float],
    [str], [list] and [dict] (keyed by strings). *)

Inductive json : Type :=
  | JNull
  | JBool (b : bool)
  | JInt (z : Z)
  | JFloat (f : float)
  | JStr (s : string)
  | JArr (l : list json)
  | JObj (d : gmap string json).

(** Exceptions that leave the handler (the server answers 500). *)
Inductive exn : Type :=
  | PILError
  | RequestError
  | AttributeError
  | TypeError
  | KeyError
  | IndexError
  | ValueError
  | OverflowError
  | OpenAIError.

(** ** Uploads and the multi-part payload *)

Record UploadFile := mkUpload {
  filename : option string;
  content : list byte
}.

(** The tuples appended to [files]: [(filename, buf, content_type)] for
    an image and [(None, value)] for an organ tag. *)
Inductive file_tuple : Type :=
  | File3 (name : option string) (buf : list byte) (content_type : string)
  | File2 (name : option string) (value : string).

Definition part : Type := string * file_tuple.

(** ** The captioning request and its answer *)

Record chat_request := mkChat {
  model : string;
  prompt_text : string;
  image_url : string;
  max_tokens : Z
}.

(** [ChatChoices l]: the call returned, [l] holding
    [choice.message.content] of every choice; [ChatFailure]: it raised. *)
Inductive chat_reply : Type :=
  | ChatChoices (l : list (option string))
  | ChatFailure.

(** What [post], [raise_for_status] and [json] come to:
    a decoded body, an [HTTPStatusError] carrying the status code of the
    response and its message, or another exception. *)
Inductive plantnet_reply : Type :=
  | ReplyJson (j : json)
  | ReplyStatusError (status_code : Z) (message : string)
  | ReplyFailure (e : exn).

(** Calls made to the two remote services, oldest first. *)
Inductive event : Type :=
  | EvPost (url : string) (files : list part)
  | EvChat (req : chat_request).

(** ** Collaborators

    Pillow, the two remote services and Python's parser of float
    literals are outside the repository; the handler is modelled over
    any behaviour of theirs. The remote services may answer according to
    everything sent so far. *)
Record World := mkWorld {
  pil_image : Type;
  Image_open : list byte -> option pil_image;
  convert : pil_image -> string -> option pil_image;
  thumbnail : pil_image -> Z * Z -> option pil_image;
  save : pil_image -> string -> Z -> option (list byte);
  http_post : list event -> string -> list part -> plantnet_reply;
  chat_create : list event -> chat_request -> chat_reply;
  float_of_str : string -> option float
}.

(** The two environment variables read at import time. *)
Record Env := mkEnv {
  PLANTNET_KEY : option string;
  OPENAI_KEY : option string
}.

Definition PLANTNET_PROJECT : string := "all".

(** ** The handler's answers *)

Record caption_entry := mkCaption {
  cap_filename : option string;
  cap_caption : string
}.

Record result_dict := mkResult {
  species : json;
  confidence : float;
  status : string;
  boost_captions : option (list caption_entry)
}.

Inductive response : Type :=
  | Returned (r : result_dict)
  | JSONResponse (body : list (string * json)) (status_code : Z).

(** ** State and exceptions

    The state a request touches: the read position of every upload
    (keyed by its index in [images]; absent means 0) and the calls made
    so far. *)
Record state := mkState {
  cursors : gmap nat nat;
  calls : list event
}.

Inductive outcome (A : Type) : Type :=
  | Ok (a : A) (s : state)
  | Raise (e : exn) (s : state).
Arguments Ok {A} a s.
Arguments Raise {A} e s.

Definition M (A : Type) : Type := state -> outcome A.

Definition ret {A} (a : A) : M A := fun s => Ok a s.
Definition raise {A} (e : exn) : M A := fun s => Raise e s.
Definition bind {A B} (m : M A) (k : A -> M B) : M B :=
  fun s => match m s with
           | Ok a s' => k a s'
           | Raise e s' => Raise e s'
           end.

Notation "x <- m ;; k" := (bind m (fun x => k))
  (at level 100, m at next level, right associativity).
Notation "m ;;; k" := (bind m (fun _ => k))
  (at level 100, right associativity).

Definition lift_option {A} (e : exn) (o : option A) : M A :=
  match o with
  | Some a => ret a
  | None => raise e
  end.

(** ** Python's built-ins, as the handler uses them *)

(** [bool(x)]: the test of [if x:]. *)
Definition truthy (x : json) : bool :=
  match x with
  | JNull => false
  | JBool b => b
  | JInt z => negb (z =? 0)%Z
  | JFloat f => negb (f =? 0)%float
  | JStr s => negb (String.eqb s "")
  | JArr l => match l with [] => false | _ => true end
  | JObj d => negb (bool_decide (d = ∅))
  end.

(** [None] and the empty string are false. *)
Definition truthy_str (k : option string) : bool :=
  match k with
  | Some s => negb (String.eqb s "")
  | None => false
  end.

(** [x.get(key, dflt)]: only a [dict] has the method. *)
Definition py_get (x : json) (key : string) (dflt : json) : M json :=
  match x with
  | JObj d => ret (default dflt (d !! key))
  | _ => raise AttributeError
  end.

(** [x[0]]. A [dict] decoded from JSON has no integer key. *)
Definition py_index0 (x : json) : M json :=
  match x with
  | JArr (first :: _) => ret first
  | JArr [] => raise IndexError
  | JStr (String c _) => ret (JStr (String c ""))
  | JStr "" => raise IndexError
  | JObj _ => raise KeyError
  | _ => raise TypeError
  end.

(** [float(n)] of an [int]: the nearest double, ties to even;
    [OverflowError] beyond the range of doubles. *)
Definition float_of_Z (z : Z) : float :=
  match z with
  | Z0 => 0%float
  | Zpos p => SF2Prim (binary_round prec emax false p 0)
  | Zneg p => SF2Prim (binary_round prec emax true p 0)
  end.

(** [float(x)]: the value, or the exception raised. *)
Definition to_float (W : World) (x : json) : exn + float :=
  match x with
  | JFloat f => inr f
  | JInt z =>
      let f := float_of_Z z in
      if is_infinity f then inl OverflowError else inr f
  | JBool b => inr (if b then 1%float else 0%float)
  | JStr s =>
      match float_of_str W s with
      | Some f => inr f
      | None => inl ValueError
      end
  | _ => inl TypeError
  end.

Definition py_float (W : World) (x : json) : M float :=
  match to_float W x with
  | inr f => ret f
  | inl e => raise e
  end.

(** [base64.b64encode(raw).decode()]. *)
Definition b64_alphabet : string :=
  "ABCDEFGHIJKLMNOPQRSTUVWXYZabcdefghijklmnopqrstuvwxyz0123456789+/".

Definition b64_char (n : N) : ascii :=
  default "="%char (String.get (N.to_nat (N.land n 63)) b64_alphabet).

Fixpoint b64encode (raw : list byte) : string :=
  match raw with
  | [] => ""
  | [a] =>
      let n := N.shiftl (Byte.to_N a) 16 in
      String (b64_char (N.shiftr n 18))
        (String (b64_char (N.shiftr n 12)) "==")
  | [a; b] =>
      let n := N.lor (N.shiftl (Byte.to_N a) 16) (N.shiftl (Byte.to_N b) 8) in
      String (b64_char (N.shiftr n 18))
        (String (b64_char (N.shiftr n 12))
           (String (b64_char (N.shiftr n 6)) "="))
  | a :: b :: c :: rest =>
      let n := N.lor (N.lor (N.shiftl (Byte.to_N a) 16)
                            (N.shiftl (Byte.to_N b) 8)) (Byte.to_N c) in
      String (b64_char (N.shiftr n 18))
        (String (b64_char (N.shiftr n 12))
           (String (b64_char (N.shiftr n 6))
              (String (b64_char n) (b64encode rest))))
  end.

(** Text is held as its UTF-8 bytes. [c.isspace()] of one character,
    by its code point: the controls 9 to 13 and 28 to 31, the space,
    U+0085, U+00A0, U+1680, U+2000 to U+200A, U+2028, U+2029, U+202F,
    U+205F and U+3000. *)
Definition isspace (cp : N) : bool :=
  ((9 <=? cp) && (cp <=? 13) || (28 <=? cp) && (cp <=? 32)
   || (cp =? 133) || (cp =? 160) || (cp =? 5760)
   || (8192 <=? cp) && (cp <=? 8202)
   || (cp =? 8232) || (cp =? 8233) || (cp =? 8239) || (cp =? 8287)
   || (cp =? 12288))%N.

Definition continuation (d : ascii) : bool :=
  let n := N_of_ascii d in ((128 <=? n) && (n <=? 191))%N.

(** The bytes [c], [c d] or [c d e] are the UTF-8 form of one
    white-space character; no character of four bytes is white space. *)
Definition space1 (c : ascii) : bool :=
  let n := N_of_ascii c in ((n <? 128) && isspace n)%N.

Definition space2 (c d : ascii) : bool :=
  let n := N_of_ascii c in
  ((194 <=? n) && (n <=? 223))%N && continuation d
  && isspace ((n - 192) * 64 + (N_of_ascii d - 128)).

Definition space3 (c d e : ascii) : bool :=
  let n := N_of_ascii c in
  let cp := ((n - 224) * 4096 + (N_of_ascii d - 128) * 64
             + (N_of_ascii e - 128))%N in
  ((224 <=? n) && (n <=? 239))%N && continuation d && continuation e
  && (2048 <=? cp)%N && isspace cp.

(** [s.lstrip()]: the leading white-space characters are dropped. *)
Fixpoint lstrip (s : string) : string :=
  match s with
  | "" => ""
  | String c r =>
      if space1 c then lstrip r
      else
        match r with
        | "" => s
        | String d r' =>
            if space2 c d then lstrip r'
            else
              match r' with
              | "" => s
              | String e r'' => if space3 c d e then lstrip r'' else s
              end
        end
  end.

(** The whole of [s] is one white-space character. *)
Definition one_space (s : string) : bool :=
  match s with
  | String c "" => space1 c
  | String c (String d "") => space2 c d
  | String c (String d (String e "")) => space3 c d e
  | _ => false
  end.

(** [s.rstrip()]: the trailing white-space characters are dropped. *)
Fixpoint rstrip (s : string) : string :=
  match s with
  | "" => ""
  | String c r =>
      let r' := rstrip r in
      if one_space (String c r') then "" else String c r'
  end.

(** [s.strip()]. *)
Definition strip (s : string) : string := rstrip (lstrip s).

(** Formatting of [PLANTNET_KEY] in the f-string: [None] prints as
    its name. *)
Definition format_key (k : option string) : string :=
  match k with
  | Some s => s
  | None => "None"
  end.

(** ** Reads of an upload and calls to the services *)

Definition cursor_of (s : state) (i : nat) : nat :=
  default 0%nat (cursors s !! i).

(** [read()]: the bytes from the read position to the end; the position
    moves to the end. *)
Definition file_read (i : nat) (image : UploadFile) : M (list byte) :=
  fun s =>
    Ok (drop (cursor_of s i) (content image))
       (mkState (<[i := Nat.max (cursor_of s i) (length (content image))]>
                   (cursors s))
                (calls s)).

Definition file_seek (i : nat) (pos : nat) : M unit :=
  fun s => Ok tt (mkState (<[i := pos]> (cursors s)) (calls s)).

Definition post (W : World) (url : string) (files : list part)
  : M plantnet_reply :=
  fun s =>
    Ok (http_post W (calls s) url files)
       (mkState (cursors s) (calls s ++ [EvPost url files])).

Definition chat (W : World) (req : chat_request) : M chat_reply :=
  fun s =>
    Ok (chat_create W (calls s) req)
       (mkState (cursors s) (calls s ++ [EvChat req])).

(** ** The handler *)

(** [organs and idx < len(organs)], then [organs[idx]]. *)
Definition organ_at (organs : option (list string)) (idx : nat)
  : option string :=
  match organs with
  | Some l =>
      if negb (bool_decide (l = [])) && (idx <? length l)%nat
      then l !! idx else None
  | None => None
  end.

(** The first loop: every upload is read, re-encoded and appended to
    [files], followed by its organ tag when there is one. *)
Fixpoint prepare_files (W : World) (organs : option (list string))
    (idx : nat) (images : list UploadFile) (files : list part)
  : M (list part) :=
  match images with
  | [] => ret files
  | image :: rest =>
      raw <- file_read idx image ;;
      img <- lift_option PILError (Image_open W raw) ;;
      img <- lift_option PILError (convert W img "RGB") ;;
      img <- lift_option PILError (thumbnail W img (1280, 1280)%Z) ;;
      buf <- lift_option PILError (save W img "JPEG" 90%Z) ;;
      let files :=
        files ++ [("images", File3 (filename image) buf "image/jpeg")] in
      let files :=
        match organ_at organs idx with
        | Some o => files ++ [("organs", File2 None o)]
        | None => files
        end in
      prepare_files W organs (S idx) rest files
  end.

Definition plantnet_url (E : Env) (no_reject : bool) : string :=
  "https://my-api.plantnet.org/v2/identify/" +:+ PLANTNET_PROJECT
  +:+ "?api-key=" +:+ format_key (PLANTNET_KEY E)
  +:+ (if no_reject then "&no-reject=true" else "").

(** Top prediction and confidence: [(best, confidence)]. *)
Definition extract_top (W : World) (plantnet_json : json)
  : M (json * float) :=
  results <- py_get plantnet_json "results" JNull ;;
  if truthy results then
    first <- py_index0 results ;;
    score <- py_get first "score" (JFloat 0) ;;
    confidence <- py_float W score ;;
    sp <- py_get first "species" (JObj ∅) ;;
    species <- py_get sp "scientificNameWithoutAuthor" (JStr "Unknown") ;;
    ret (species, confidence)
  else
    ret (JNull, 0%float).

Definition caption_prompt : string :=
  "Describe this image and suggest likely plant species or context.".

(** The arguments of [client.chat.completions.create] for the bytes
    [raw] of an upload. *)
Definition vision_request (raw : list byte) : chat_request :=
  let b64 := b64encode raw in
  let data_uri := "data:image/jpeg;base64," +:+ b64 in
  mkChat "gpt-4-vision-preview" caption_prompt data_uri 300%Z.

(** The second loop: one captioning call per upload, in the order of
    [images]. *)
Fixpoint caption_images (W : World) (idx : nat) (images : list UploadFile)
    (boost_captions : list caption_entry) : M (list caption_entry) :=
  match images with
  | [] => ret boost_captions
  | image :: rest =>
      _ <- file_read idx image ;;
      file_seek idx 0 ;;;
      raw <- file_read idx image ;;
      resp <- chat W (vision_request raw) ;;
      choices <- match resp with
                 | ChatChoices l => ret l
                 | ChatFailure => raise OpenAIError
                 end ;;
      content <- lift_option IndexError (head choices) ;;
      let caption :=
        match content with
        | Some c => strip c
        | None => "No caption returned"
        end in
      caption_images W (S idx) rest
        (boost_captions ++ [mkCaption (filename image) caption])
  end.

(** [confidence < 0.8 and OPENAI_KEY]. *)
Definition boost_gate (E : Env) (confidence : float) : bool :=
  (confidence <? 0.8)%float && truthy_str (OPENAI_KEY E).

(** The returned dict; [boost_captions if boost_captions else None]. *)
Definition make_result (best : json) (confidence : float) (status : string)
    (boost_captions : list caption_entry) : response :=
  Returned (mkResult best confidence status
              (match boost_captions with
               | [] => None
               | _ => Some boost_captions
               end)).

Definition identify_plant (W : World) (E : Env) (images : list UploadFile)
    (organs : option (list string)) (no_reject : bool) : M response :=
  files <- prepare_files W organs 0 images [] ;;
  let url := plantnet_url E no_reject in
  r <- post W url files ;;
  match r with
  | ReplyStatusError code message =>
      ret (JSONResponse [("error", JStr message)] code)
  | ReplyFailure e => raise e
  | ReplyJson plantnet_json =>
      top <- extract_top W plantnet_json ;;
      let best := fst top in
      let confidence := snd top in
      if boost_gate E confidence then
        boost_captions <- caption_images W 0 images [] ;;
        ret (make_result best confidence "boosted" boost_captions)
      else
        ret (make_result best confidence "plantnet_only" [])
  end.

(** The keys of the JSON object the caller receives. *)
Definition response_fields (r : response) : list string :=
  match r with
  | Returned _ => ["species"; "confidence"; "status"; "boost_captions"]
  | JSONResponse body _ => body.*1
  end.

Definition initial_state : state := mkState ∅ [].

(** ** Reading the answers *)

(** The caption the second loop records for an answer of the captioning
    service; [None] when the loop raises on it. *)
Definition caption_text (r : chat_reply) : option string :=
  match r with
  | ChatChoices (Some c :: _) => Some (strip c)
  | ChatChoices (None :: _) => Some "No caption returned"
  | ChatChoices [] => None
  | ChatFailure => None
  end.

(** The state once the request to PlantNet has been sent. *)
Definition posted (s : state) (url : string) (files : list part) : state :=
  mkState (cursors s) (calls s ++ [EvPost url files]).

(** The state once upload [idx] has been read again and its caption
    requested. *)
Definition captioned (s : state) (idx : nat) (image : UploadFile) : state :=
  mkState
    (<[idx := Nat.max 0 (length (content image))]>
       (<[idx := 0%nat]>
          (<[idx := Nat.max (cursor_of s idx) (length (content image))]>
             (cursors s))))
    (calls s ++ [EvChat (vision_request (content image))]).

(** The captioning requests of a list of uploads, as events. *)
Definition chat_events (images : list UploadFile) : list event :=
  (fun image => EvChat (vision_request (content image))) <$> images.

(** The parts of one upload in the payload: the image, then its tag. *)
Definition upload_parts (tags : list string) (i : nat)
    (p : UploadFile * list byte) : list part :=
  ("images", File3 (filename p.1) p.2 "image/jpeg")
  :: match tags !! i with
     | Some o => [("organs", File2 None o)]
     | None => []
     end.

(** The values of the [organs] fields of a payload, in order. *)
Definition organ_values (files : list part) : list string :=
  omap (fun p : part =>
          match p with
          | (name, File2 _ v) => if String.eqb name "organs" then Some v else None
          | _ => None
          end) files.

(** The file names of the [images] fields of a payload, in order. *)
Definition image_names (files : list part) : list (option string) :=
  omap (fun p : part =>
          match p with
          | (name, File3 n _ _) => if String.eqb name "images" then Some n else None
          | _ => None
          end) files.

(** The first candidate has no nested scientific name: no [species]
    entry, or one that is a dict without the name. *)
Definition name_missing (first : gmap string json) : Prop :=
  match first !! "species" with
  | None => True
  | Some (JObj sp) => sp !! "scientificNameWithoutAuthor" = None
  | Some _ => False
  end.

(** The state an execution ends in, and the calls it made. *)
Definition final_state {A} (o : outcome A) : state :=
  match o with
  | Ok _ s => s
  | Raise _ s => s
  end.

Definition new_calls {A} (s : state) (o : outcome A) : list event :=
  drop (length (calls s)) (calls (final_state o)).

(** A computation that leaves the state as it found it. *)
Definition stateless {A} (m : M A) : Prop :=
  forall s, final_state (m s) = s.

(** ** Pillow's images

    Pillow is not part of the repository. What follows stands for the
    part of it the normalisation relies on: a decoded image with its
    size in pixels and its mode, and what [convert] and [thumbnail]
    make of it. *)

(** Modelled from the spec: a decoded image of Pillow (missing: the
    [Image] class), kept to its size and its colour mode. *)
Record picture := mkPicture {
  pic_width : Z;
  pic_height : Z;
  pic_mode : string
}.

Definition ceil_div (n d : Z) : Z := (- ((- n) / d))%Z.

(** Modelled from the spec: the size [Image.thumbnail] gives an image
    (missing: Pillow's [thumbnail]), section 4.1: both dimensions at
    most the maximum, aspect ratio preserved, no upscaling of an image
    already within the box. As Pillow documents it: an image within the
    box keeps its size; otherwise the side that meets the box takes the
    size of the box and the other side is the proportional length
    rounded down or up, whichever is nearer in aspect ratio (down on a
    tie), and at least 1. Lengths are exact quotients here. *)
Definition thumbnail_size (size box : Z * Z) : Z * Z :=
  let '(w, h) := size in
  let '(x, y) := box in
  (if (w <=? x) && (h <=? y) then (w, h)
   else if w * y <=? x * h then
     let lo := (y * w) / h in
     let hi := ceil_div (y * w) h in
     let pick :=
       if Z.abs (w * y - lo * h) <=? Z.abs (w * y - hi * h) then lo else hi in
     (Z.max pick 1, y)
   else
     let lo := (x * h) / w in
     let hi := ceil_div (x * h) w in
     let pick :=
       if (lo =? 0)
          || (Z.abs (w * lo - x * h) * hi <=? Z.abs (w * hi - x * h) * lo)
       then lo else hi in
     (x, Z.max pick 1))%Z.

(** Modelled from the spec: [Image.convert] (missing: Pillow's
    [convert]) gives the image in the mode asked for, at the same
    size. *)
Definition pil_convert (p : picture) (mode : string) : option picture :=
  Some (mkPicture (pic_width p) (pic_height p) mode).

(** Modelled from the spec: [Image.thumbnail] (missing: Pillow's
    [thumbnail]) resizes to [thumbnail_size] and keeps the mode. *)
Definition pil_thumbnail (p : picture) (box : Z * Z) : option picture :=
  let size := thumbnail_size (pic_width p, pic_height p) box in
  Some (mkPicture size.1 size.2 (pic_mode p)).

(** A world whose Pillow is the one above, over any decoder and any
    encoder of image files. *)
Definition pillow_world (decode : list byte -> option picture)
    (encode : picture -> string -> Z -> option (list byte))
    (reply : list event -> string -> list part -> plantnet_reply)
    (answers : list event -> chat_request -> chat_reply)
    (parse : string -> option float) : World :=
  mkWorld picture decode pil_convert pil_thumbnail encode reply answers parse.

(** ** Test doubles

    A world whose Pillow keeps the bytes as they are, whose PlantNet
    answers [reply] and whose captioning service answers by [answers]. *)
Definition stub_world (reply : plantnet_reply)
    (answers : list event -> chat_request -> chat_reply) : World :=
  mkWorld (list byte) Some (fun img _ => Some img) (fun img _ => Some img)
          (fun img _ _ => Some img) (fun _ _ _ => reply) answers
          (fun _ => None).

Definition always (text : option string) : list event -> chat_request -> chat_reply :=
  fun _ _ => ChatChoices [text].

Definition never_answers : list event -> chat_request -> chat_reply :=
  fun _ _ => ChatFailure.

Definition candidate (score : json) (name : string) : json :=
  JObj {[ "score" := score;
          "species" := JObj {[ "scientificNameWithoutAuthor" := JStr name ]} ]}.

Definition results_of (l : list json) : json :=
  JObj {[ "results" := JArr l ]}.

Definition with_key : Env := mkEnv (Some "pn") (Some "sk-test").
Definition without_key : Env := mkEnv (Some "pn") None.

Definition leaf_jpg : UploadFile :=
  mkUpload (Some "leaf.jpg") ["M"; "a"; "n"]%byte.
Definition flower_jpg : UploadFile :=
  mkUpload (Some "flower.jpg") ["M"; "a"]%byte.

(** Scenarios: one confident answer, one doubtful answer for two
    uploads, no candidate at all for a request without uploads, and a
    score above one. *)
Definition confident_world : World :=
  stub_world (ReplyJson (results_of [candidate (JFloat 0.92) "Rosa damascena"]))
             (always (Some "a rose")).

Definition doubtful_world : World :=
  stub_world (ReplyJson (results_of [candidate (JFloat 0.4) "Rosa damascena"]))
             (always (Some " a rose ")).

Definition no_match_world : World :=
  stub_world (ReplyJson (results_of [])) (always None).

Definition forbidden_world : World :=
  stub_world (ReplyStatusError 403 "Client error '403 Forbidden'")
             (always (Some "a rose")).

Definition overscored_world : World :=
  stub_world (ReplyJson (results_of [candidate (JFloat 1.5) "Rosa damascena"]))
             (always (Some "a rose")).

(** A captioning service that fails on the first upload and would
    answer for every later one. *)
Definition fails_first (history : list event) (req : chat_request)
  : chat_reply :=
  match history with
  | [_] => ChatFailure
  | _ => ChatChoices [Some "a fern"]
  end.

Definition flaky_world : World :=
  stub_world (ReplyJson (results_of [])) fails_first.

(** A first candidate with neither a score nor a species. *)
Definition bare_world : World :=
  stub_world (ReplyJson (results_of [JObj ∅])) (always None).

Definition doubtful_run : outcome response :=
  identify_plant doubtful_world with_key [leaf_jpg; flower_jpg]
                 (Some ["leaf"]) true initial_state.

Definition doubtful_result : result_dict :=
  mkResult (JStr "Rosa damascena") 0.4 "boosted"
           (Some [mkCaption (Some "leaf.jpg") "a rose";
                  mkCaption (Some "flower.jpg") "a rose"]).

Definition doubtful_payload : list part :=
  [("images", File3 (Some "leaf.jpg") ["M"; "a"; "n"]%byte "image/jpeg");
   ("organs", File2 None "leaf");
   ("images", File3 (Some "flower.jpg") ["M"; "a"]%byte "image/jpeg")].

(** First candidates with a score and no species, and with a species
    and no score. *)
Definition nameless_world : World :=
  stub_world (ReplyJson (results_of [JObj {[ "score" := JFloat 0.92 ]}]))
             (always (Some "a rose")).

Definition unscored_world : World :=
  stub_world
    (ReplyJson (results_of
       [JObj {[ "species" := JObj {[ "scientificNameWithoutAuthor"
                                     := JStr "Rosa damascena" ]} ]}]))
    (always (Some "a rose")).

(** A Pillow that recognises no image, a PlantNet that cannot be
    reached, and answers with a null score and with a score that is not
    a number. *)
Definition blind_world : World :=
  mkWorld (list byte) (fun _ => None) (fun img _ => Some img)
          (fun img _ => Some img) (fun img _ _ => Some img)
          (fun _ _ _ => ReplyJson (results_of [])) (always None)
          (fun _ => None).

Definition unreachable_world : World :=
  stub_world (ReplyFailure RequestError) (always (Some "a rose")).

Definition null_score_world : World :=
  stub_world (ReplyJson (results_of [candidate JNull "Rosa damascena"]))
             (always (Some "a rose")).

Definition nan_world : World :=
  stub_world (ReplyJson (results_of [candidate (JFloat nan) "Rosa damascena"]))
             (always (Some "a rose")).

Definition null_species_world : World :=
  stub_world (ReplyJson (results_of
                [JObj {[ "score" := JFloat 0.92; "species" := JNull ]}]))
             (always (Some "a rose")).

(** A text that begins, or ends, with a white-space character. *)
Definition space_at_start (s : string) : bool :=
  match s with
  | "" => false
  | String c r =>
      space1 c
      || match r with
         | "" => false
         | String d r' =>
             space2 c d
             || match r' with
                | "" => false
                | String e _ => space3 c d e
                end
         end
  end.

Fixpoint space_at_end (s : string) : bool :=
  match s with
  | "" => false
  | String _ r => one_space s || space_at_end r
  end.

Definition trimmed (s : string) : Prop :=
  space_at_start s = false /\ space_at_end s = false.

(** ** Laws of the monad *)

Lemma bind_Ok {A B} (m : M A) (k : A -> M B) s b s' :
  bind m k s = Ok b s' <-> exists a s1, m s = Ok a s1 /\ k a s1 = Ok b s'.
Proof.
  unfold bind. split.
  - destruct (m s) as [a s1|e s1]; [eauto|discriminate].
  - intros (a & s1 & -> & Hk). exact Hk.
Qed.

Lemma bind_Raise_l {A B} (m : M A) (k : A -> M B) s e s' :
  m s = Raise e s' -> bind m k s = Raise e s'.
Proof. unfold bind. now intros ->. Qed.

Lemma bind_Ok_l {A B} (m : M A) (k : A -> M B) s a s1 :
  m s = Ok a s1 -> bind m k s = k a s1.
Proof. unfold bind. now intros ->. Qed.

Lemma lift_option_Ok {A} (e : exn) (o : option A) s a s' :
  lift_option e o s = Ok a s' <-> o = Some a /\ s' = s.
Proof.
  destruct o as [x|]; unfold lift_option, ret, raise; split.
  - intros [= -> ->]. auto.
  - intros [[= ->] ->]. reflexivity.
  - discriminate.
  - intros [[=] _].
Qed.

(** ** The payload of the first loop *)

Lemma organ_at_lookup (organs : option (list string)) (idx : nat) :
  organ_at organs idx = default [] organs !! idx.
Proof.
  destruct organs as [l|]; simpl; [|reflexivity].
  destruct (bool_decide (l = [])) eqn:Hl; simpl.
  - apply bool_decide_eq_true in Hl. now subst.
  - destruct (Nat.ltb_spec idx (length l)) as [Hlt|Hge]; [reflexivity|].
    symmetry. apply lookup_ge_None. lia.
Qed.

Lemma prepare_files_spec (W : World) (organs : option (list string))
    (images : list UploadFile) :
  forall idx files s out s',
    prepare_files W organs idx images files s = Ok out s' ->
    calls s' = calls s /\
    exists bufs : list (list byte),
      length bufs = length images /\
      out = files ++ concat (imap (fun i => upload_parts (default [] organs) (idx + i))
                                  (zip images bufs)).
Proof.
  induction images as [|image rest IH]; intros idx files s out s' H.
  - injection H as <- <-. split; [reflexivity|]. exists [].
    split; [reflexivity|]. simpl. now rewrite app_nil_r.
  - cbn [prepare_files] in H.
    apply bind_Ok in H as (raw & s1 & Hread & H).
    injection Hread as <- <-.
    apply bind_Ok in H as (img & s2 & H1 & H). apply lift_option_Ok in H1 as [_ ->].
    apply bind_Ok in H as (img2 & s2 & H2 & H). apply lift_option_Ok in H2 as [_ ->].
    apply bind_Ok in H as (img3 & s2 & H3 & H). apply lift_option_Ok in H3 as [_ ->].
    apply bind_Ok in H as (buf & s2 & H4 & H). apply lift_option_Ok in H4 as [_ ->].
    rewrite organ_at_lookup in H.
    apply IH in H as [Hcalls (bufs & Hlen & ->)].
    split; [exact Hcalls|].
    exists (buf :: bufs). split; [simpl; now rewrite Hlen|].
    cbn [zip zip_with]. rewrite imap_cons. cbn [concat].
    rewrite Nat.add_0_r.
    replace (imap ((fun i => upload_parts (default [] organs) (idx + i)) ∘ S)
                  (zip rest bufs))
      with (imap (fun i => upload_parts (default [] organs) (S idx + i))
                 (zip rest bufs)).
    2:{ apply imap_ext. intros i p _. simpl. f_equal. lia. }
    unfold upload_parts at 2. cbn [fst snd].
    destruct (default [] organs !! idx) as [o|];
      now rewrite <- ?app_assoc.
Qed.

(** ** The extraction reads no state *)

Lemma stateless_ret {A} (a : A) : stateless (ret a).
Proof. intros s. reflexivity. Qed.

Lemma stateless_raise {A} (e : exn) : stateless (@raise A e).
Proof. intros s. reflexivity. Qed.

Lemma stateless_bind {A B} (m : M A) (k : A -> M B) :
  stateless m -> (forall a, stateless (k a)) -> stateless (bind m k).
Proof.
  intros Hm Hk s. unfold bind. specialize (Hm s).
  destruct (m s) as [a s1|e s1]; simpl in Hm; subst s1.
  - apply Hk.
  - reflexivity.
Qed.

Lemma stateless_lift_option {A} (e : exn) (o : option A) :
  stateless (lift_option e o).
Proof. destruct o; [apply stateless_ret|apply stateless_raise]. Qed.

Lemma stateless_py_get x key dflt : stateless (py_get x key dflt).
Proof. destruct x; first [apply stateless_ret|apply stateless_raise]. Qed.

Lemma stateless_py_index0 x : stateless (py_index0 x).
Proof.
  destruct x as [| | | |[|c r]|[|y l]|];
    first [apply stateless_ret|apply stateless_raise].
Qed.

Lemma stateless_py_float W x : stateless (py_float W x).
Proof.
  unfold py_float.
  destruct (to_float W x); [apply stateless_raise|apply stateless_ret].
Qed.

Create HintDb stateless.

#[local] Hint Resolve stateless_ret stateless_raise stateless_lift_option
  stateless_py_get stateless_py_index0 stateless_py_float : stateless.

Lemma stateless_extract_top W j : stateless (extract_top W j).
Proof.
  unfold extract_top.
  apply stateless_bind; [auto with stateless|]. intros results.
  destruct (truthy results); [|auto with stateless].
  repeat (apply stateless_bind; [auto with stateless|intros ?]).
  auto with stateless.
Qed.

Lemma stateless_Ok {A} (m : M A) s a s' :
  stateless m -> m s = Ok a s' -> s' = s.
Proof. intros Hm H. specialize (Hm s). now rewrite H in Hm. Qed.

Lemma py_get_Ok x key dflt s v s' :
  py_get x key dflt s = Ok v s' ->
  exists d, x = JObj d /\ v = default dflt (d !! key) /\ s' = s.
Proof.
  destruct x; try discriminate. intros [= <- <-]. eauto.
Qed.

Lemma py_float_Ok W x s f s' :
  py_float W x s = Ok f s' -> to_float W x = inr f /\ s' = s.
Proof.
  unfold py_float. destruct (to_float W x); [discriminate|].
  intros [= <- <-]. auto.
Qed.

(** What a successful extraction has read. *)
Lemma extract_top_Ok W j s best conf s' :
  extract_top W j s = Ok (best, conf) s' ->
  s' = s /\
  exists d, j = JObj d /\
    let results := default JNull (d !! "results") in
    (truthy results = false /\ best = JNull /\ conf = 0%float) \/
    (exists first rest sp,
        results = JArr (JObj first :: rest) /\
        to_float W (default (JFloat 0) (first !! "score")) = inr conf /\
        default (JObj ∅) (first !! "species") = JObj sp /\
        best = default (JStr "Unknown") (sp !! "scientificNameWithoutAuthor")).
Proof.
  intros H. split; [exact (stateless_Ok _ _ _ _ (stateless_extract_top W j) H)|].
  unfold extract_top in H.
  apply bind_Ok in H as (results & s1 & Hres & H).
  apply py_get_Ok in Hres as (d & -> & -> & ->).
  exists d. split; [reflexivity|]. cbn zeta.
  destruct (truthy (default JNull (d !! "results"))) eqn:Htruthy.
  - right.
    apply bind_Ok in H as (first & s1 & Hfirst & H).
    apply bind_Ok in H as (score & s2 & Hscore & H).
    apply py_get_Ok in Hscore as (fd & -> & -> & ->).
    apply bind_Ok in H as (c & s2 & Hc & H).
    apply py_float_Ok in Hc as [Hc ->].
    apply bind_Ok in H as (spv & s2 & Hsp & H).
    apply py_get_Ok in Hsp as (fd' & [= <-] & -> & ->).
    apply bind_Ok in H as (name & s2 & Hname & H).
    apply py_get_Ok in Hname as (sp & Hsp & -> & ->).
    injection H as <- <- <-.
    destruct (default JNull (d !! "results")) as [| | | |[|ch r]|[|y l]|];
      try discriminate.
    injection Hfirst as -> _.
    exists fd, l, sp. auto.
  - left. injection H as <- <- _. auto.
Qed.

(** ** The captioning loop *)

Lemma extract_top_first W d first rest s :
  d !! "results" = Some (JArr (JObj first :: rest)) ->
  extract_top W (JObj d) s =
  match to_float W (default (JFloat 0) (first !! "score")) with
  | inl e => Raise e s
  | inr f =>
      match default (JObj ∅) (first !! "species") with
      | JObj sp =>
          Ok (default (JStr "Unknown") (sp !! "scientificNameWithoutAuthor"), f) s
      | _ => Raise AttributeError s
      end
  end.
Proof.
  intros Hres. unfold extract_top. unfold bind at 1. cbn [py_get ret].
  rewrite Hres. cbn [default from_option id truthy].
  unfold bind at 1. cbn [py_index0 ret].
  unfold bind at 1. cbn [py_get ret].
  unfold bind at 1. unfold py_float.
  destruct (to_float W (default (JFloat 0) (first !! "score"))) as [e|f];
    [reflexivity|]. cbn [ret].
  unfold bind at 1. cbn [py_get ret].
  destruct (default (JObj ∅) (first !! "species")); reflexivity.
Qed.

Lemma cursor_of_insert (m : gmap nat nat) (l : list event) (i pos : nat) :
  cursor_of (mkState (<[i := pos]> m) l) i = pos.
Proof. unfold cursor_of. cbn [cursors]. now rewrite lookup_insert_eq. Qed.

(** One turn of the loop, by the answer of the captioning service. *)
Lemma caption_images_step W idx image rest acc s :
  caption_images W idx (image :: rest) acc s =
  match chat_create W (calls s) (vision_request (content image)) with
  | ChatChoices (c :: _) =>
      caption_images W (S idx) rest
        (acc ++ [mkCaption (filename image)
                   (match c with
                    | Some c => strip c
                    | None => "No caption returned"
                    end)])
        (captioned s idx image)
  | ChatChoices [] => Raise IndexError (captioned s idx image)
  | ChatFailure => Raise OpenAIError (captioned s idx image)
  end.
Proof.
  cbn [caption_images]. unfold bind at 1. cbn [file_read].
  unfold bind at 1. cbn [file_seek]. unfold bind at 1. cbn [file_read].
  rewrite !cursor_of_insert, !drop_0.
  unfold bind at 1. cbn [chat cursors calls]. fold (captioned s idx image).
  destruct (chat_create W (calls s) (vision_request (content image)))
    as [[|c l]|]; reflexivity.
Qed.

Lemma caption_images_calls W images :
  forall idx acc s,
    exists reqs : list chat_request,
      calls (final_state (caption_images W idx images acc s))
      = calls s ++ (EvChat <$> reqs).
Proof.
  induction images as [|image rest IH]; intros idx acc s.
  - exists []. simpl. now rewrite app_nil_r.
  - rewrite caption_images_step.
    destruct (chat_create W (calls s) (vision_request (content image)))
      as [[|c l]|].
    + exists [vision_request (content image)]. reflexivity.
    + destruct (IH (S idx)
                  (acc ++ [mkCaption (filename image)
                             (match c with
                              | Some c => strip c
                              | None => "No caption returned"
                              end)])
                  (captioned s idx image)) as [reqs Hreqs].
      exists (vision_request (content image) :: reqs).
      rewrite Hreqs. cbn [captioned calls fmap list_fmap].
      now rewrite <- app_assoc.
    + exists [vision_request (content image)]. reflexivity.
Qed.

(** A loop that ends has asked for one caption per upload, in the order
    of [images], and has recorded what [caption_text] reads in each
    answer under the file name of that upload. *)
Lemma caption_images_spec W images :
  forall idx acc s caps s',
    caption_images W idx images acc s = Ok caps s' ->
    calls s' = calls s ++ chat_events images /\
    exists texts : list string,
      length texts = length images /\
      caps = acc ++ zip_with mkCaption (filename <$> images) texts /\
      forall i image,
        images !! i = Some image ->
        caption_text (chat_create W (calls s ++ chat_events (take i images))
                                    (vision_request (content image)))
        = texts !! i.
Proof.
  induction images as [|image rest IH]; intros idx acc s caps s' H.
  - injection H as <- <-. split; [simpl; now rewrite app_nil_r|].
    exists []. split; [reflexivity|]. split; [simpl; now rewrite app_nil_r|].
    intros i image Hi. discriminate.
  - rewrite caption_images_step in H.
    destruct (chat_create W (calls s) (vision_request (content image)))
      as [[|c l]|] eqn:Hreply; try discriminate.
    apply IH in H as (Hcalls & texts & Hlen & -> & Htexts).
    cbn [captioned calls] in Hcalls, Htexts.
    split.
    { rewrite Hcalls. unfold chat_events. cbn [fmap list_fmap].
      now rewrite <- app_assoc. }
    exists (match c with
            | Some c => strip c
            | None => "No caption returned"
            end :: texts).
    split; [simpl; now rewrite Hlen|].
    split; [cbn [fmap list_fmap zip_with]; now rewrite <- app_assoc|].
    intros [|i] image' Hi.
    + injection Hi as <-. cbn [take chat_events fmap list_fmap].
      rewrite app_nil_r, Hreply. now destruct c.
    + change (rest !! i = Some image') in Hi.
      transitivity (texts !! i); [|reflexivity].
      rewrite <- (Htexts i image' Hi).
      unfold chat_events. cbn [take fmap list_fmap].
      now rewrite <- app_assoc.
Qed.

(** ** The handler, stage by stage *)

Lemma identify_plant_unprepared W E images organs no_reject s e s1 :
  prepare_files W organs 0 images [] s = Raise e s1 ->
  identify_plant W E images organs no_reject s = Raise e s1.
Proof. intros H. unfold identify_plant. now apply bind_Raise_l. Qed.

Lemma identify_plant_posted W E images organs no_reject s files s1 :
  prepare_files W organs 0 images [] s = Ok files s1 ->
  identify_plant W E images organs no_reject s =
  let url := plantnet_url E no_reject in
  let s2 := posted s1 url files in
  match http_post W (calls s1) url files with
  | ReplyStatusError code message =>
      Ok (JSONResponse [("error", JStr message)] code) s2
  | ReplyFailure e => Raise e s2
  | ReplyJson plantnet_json =>
      match extract_top W plantnet_json s2 with
      | Raise e s3 => Raise e s3
      | Ok top s3 =>
          if boost_gate E top.2 then
            (boost_captions <- caption_images W 0 images [] ;;
             ret (make_result top.1 top.2 "boosted" boost_captions)) s3
          else Ok (make_result top.1 top.2 "plantnet_only" []) s3
      end
  end.
Proof.
  intros H. unfold identify_plant.
  rewrite (bind_Ok_l _ _ _ _ _ H). cbn zeta.
  unfold bind at 1. cbn [post]. fold (posted s1 (plantnet_url E no_reject) files).
  destruct (http_post W (calls s1) (plantnet_url E no_reject) files)
    as [j|code message|e]; try reflexivity.
  unfold bind at 1.
  destruct (extract_top W j (posted s1 (plantnet_url E no_reject) files))
    as [top s3|e s3]; [|reflexivity].
  destruct (boost_gate E top.2); reflexivity.
Qed.

(** What a run that returns the dict went through. *)
Lemma identify_plant_Returned W E images organs no_reject s r s' :
  identify_plant W E images organs no_reject s = Ok (Returned r) s' ->
  exists files s1 plantnet_json best conf,
    let url := plantnet_url E no_reject in
    prepare_files W organs 0 images [] s = Ok files s1 /\
    http_post W (calls s1) url files = ReplyJson plantnet_json /\
    extract_top W plantnet_json (posted s1 url files)
    = Ok (best, conf) (posted s1 url files) /\
    ((boost_gate E conf = true /\
      exists caps,
        caption_images W 0 images [] (posted s1 url files) = Ok caps s' /\
        r = mkResult best conf "boosted"
              (match caps with [] => None | _ => Some caps end)) \/
     (boost_gate E conf = false /\ s' = posted s1 url files /\
      r = mkResult best conf "plantnet_only" None)).
Proof.
  intros H.
  destruct (prepare_files W organs 0 images [] s) as [files s1|e s1] eqn:Hprep.
  2:{ rewrite (identify_plant_unprepared _ _ _ _ _ _ _ _ Hprep) in H.
      discriminate. }
  rewrite (identify_plant_posted _ _ _ _ _ _ _ _ Hprep) in H. cbn zeta in H.
  exists files, s1.
  destruct (http_post W (calls s1) (plantnet_url E no_reject) files)
    as [j|code message|e] eqn:Hreply; try discriminate.
  destruct (extract_top W j (posted s1 (plantnet_url E no_reject) files))
    as [[best conf] s3|e s3] eqn:Htop; [|discriminate].
  pose proof (stateless_Ok _ _ _ _ (stateless_extract_top W j) Htop) as ->.
  exists j, best, conf. cbn zeta. cbn [fst snd] in H.
  split; [reflexivity|]. split; [exact Hreply|]. split; [exact Htop|].
  destruct (boost_gate E conf).
  - left. split; [reflexivity|].
    apply bind_Ok in H as (caps & s4 & Hcaps & H).
    injection H as <- <-. exists caps. split; [exact Hcaps|reflexivity].
  - right. injection H as <- <-. auto.
Qed.

Lemma prepare_files_calls W organs images :
  forall idx files s,
    calls (final_state (prepare_files W organs idx images files s)) = calls s.
Proof.
  induction images as [|image rest IH]; intros idx files s; [reflexivity|].
  cbn [prepare_files]. unfold bind at 1. cbn [file_read].
  repeat (unfold bind at 1;
          match goal with
          | |- context [lift_option PILError ?o] => destruct o; cbn [lift_option ret raise]
          end; [|reflexivity]).
  rewrite IH. reflexivity.
Qed.

(** The calls of a run: nothing when an upload cannot be re-encoded;
    otherwise the request to PlantNet, then captioning requests only,
    and none of those unless PlantNet answered with a body. *)
Lemma identify_plant_calls W E images organs no_reject s :
  let out := identify_plant W E images organs no_reject s in
  match prepare_files W organs 0 images [] s with
  | Raise _ _ => new_calls s out = []
  | Ok files s1 =>
      exists reqs : list chat_request,
        new_calls s out
        = EvPost (plantnet_url E no_reject) files :: (EvChat <$> reqs) /\
        match http_post W (calls s1) (plantnet_url E no_reject) files with
        | ReplyJson _ => True
        | _ => reqs = []
        end
  end.
Proof.
  cbn zeta. unfold new_calls.
  pose proof (prepare_files_calls W organs images 0 [] s) as Hcalls.
  destruct (prepare_files W organs 0 images [] s) as [files s1|e s1] eqn:Hprep;
    cbn [final_state] in Hcalls.
  2:{ rewrite (identify_plant_unprepared _ _ _ _ _ _ _ _ Hprep).
      cbn [final_state]. rewrite Hcalls. apply drop_all. }
  rewrite (identify_plant_posted _ _ _ _ _ _ _ _ Hprep). cbn zeta.
  set (url := plantnet_url E no_reject).
  assert (Hdrop : forall l, drop (length (calls s)) (calls s1 ++ EvPost url files :: l)
                            = EvPost url files :: l).
  { intros l. rewrite Hcalls. now rewrite drop_app_length. }
  destruct (http_post W (calls s1) url files) as [j|code message|e].
  - pose proof (stateless_extract_top W j (posted s1 url files)) as Hst.
    destruct (extract_top W j (posted s1 url files)) as [top s3|e s3];
      cbn [final_state] in Hst; subst s3.
    + destruct (boost_gate E top.2).
      * destruct (caption_images_calls W images 0 [] (posted s1 url files))
          as [reqs Hreqs].
        exists reqs. split; [|exact I].
        unfold bind.
        destruct (caption_images W 0 images [] (posted s1 url files))
          as [caps s4|e s4]; cbn [final_state ret] in Hreqs |- *;
          rewrite Hreqs; cbn [posted calls]; rewrite <- app_assoc; apply Hdrop.
      * exists []. split; [|exact I]. apply Hdrop.
    + exists []. split; [|exact I]. apply Hdrop.
  - exists []. split; [|reflexivity]. apply Hdrop.
  - exists []. split; [|reflexivity]. apply Hdrop.
Qed.

(** ** The gate *)

(** C1. A run that returns the dict has status ["boosted"] exactly when
    the returned confidence is strictly below 0.8 and [OPENAI_KEY] is
    set to a non-empty string; in every other case the status is
    ["plantnet_only"]. *)
Theorem status_boosted_iff W E images organs no_reject s r s' :
  identify_plant W E images organs no_reject s = Ok (Returned r) s' ->
  (status r = "boosted" <->
   (confidence r <? 0.8)%float = true /\ truthy_str (OPENAI_KEY E) = true) /\
  (~ ((confidence r <? 0.8)%float = true /\ truthy_str (OPENAI_KEY E) = true) ->
   status r = "plantnet_only").
Proof.
  intros H.
  apply identify_plant_Returned in H
    as (files & s1 & j & best & conf & _ & _ & _ & Hgate).
  unfold boost_gate in Hgate.
  destruct Hgate as [[Hg (caps & _ & ->)]|[Hg [_ ->]]]; cbn [status confidence].
  - apply andb_true_iff in Hg. split; [tauto|]. intros Hn. tauto.
  - apply andb_false_iff in Hg. split; [|reflexivity].
    split; [discriminate|].
    intros [H1 H2]. destruct Hg; congruence.
Qed.

Lemma status_boosted_iff_witness :
  doubtful_run = Ok (Returned doubtful_result) (final_state doubtful_run) /\
  (status doubtful_result = "boosted" <->
   (confidence doubtful_result <? 0.8)%float = true /\
   truthy_str (OPENAI_KEY with_key) = true).
Proof.
  assert (H : doubtful_run
              = Ok (Returned doubtful_result) (final_state doubtful_run))
    by (vm_compute; reflexivity).
  split; [exact H|].
  exact (proj1 (status_boosted_iff _ _ _ _ _ _ _ _ H)).
Defined.

(** A run that returns the dict has a non-null [boost_captions] exactly
    when its status is ["boosted"] and [images] is not empty; a
    non-null [boost_captions] has one entry per upload. *)
Lemma captions_present_when W E images organs no_reject s r s' :
  identify_plant W E images organs no_reject s = Ok (Returned r) s' ->
  (boost_captions r <> None <-> status r = "boosted" /\ images <> []) /\
  (forall caps, boost_captions r = Some caps ->
                length caps = length images /\ length caps <= length images).
Proof.
  intros H.
  apply identify_plant_Returned in H
    as (files & s1 & j & best & conf & _ & _ & _ & Hgate).
  destruct Hgate as [[Hg (caps & Hcaps & ->)]|[Hg [_ ->]]];
    cbn [status boost_captions].
  - apply caption_images_spec in Hcaps as (_ & texts & Hlen & -> & _).
    cbn [app].
    assert (Hl : length (zip_with mkCaption (filename <$> images) texts)
                 = length images).
    { rewrite length_zip_with, length_fmap. lia. }
    destruct (zip_with mkCaption (filename <$> images) texts) as [|c l] eqn:Hz.
    + destruct images; [|discriminate Hl].
      split; [|discriminate]. split; [congruence|]. intros [_ Hne]. congruence.
    + split.
      * split; [|discriminate]. intros _. split; [reflexivity|].
        intros ->. discriminate Hl.
      * intros caps' [= <-]. rewrite Hl. lia.
  - split; [|discriminate]. split; [congruence|]. intros [Hst _]. discriminate.
Qed.

(** C2. The route takes [images] as a required field ([File(...)]), so
    a request holds at least one upload. A run that returns the dict
    then has a non-null [boost_captions] exactly when its status is
    ["boosted"], and a non-null [boost_captions] has at most as many
    entries as there are uploads. *)
Theorem captions_iff_boosted W E images organs no_reject s r s' :
  images <> [] ->
  identify_plant W E images organs no_reject s = Ok (Returned r) s' ->
  (boost_captions r <> None <-> status r = "boosted") /\
  (forall caps, boost_captions r = Some caps ->
                length caps <= length images).
Proof.
  intros Hne H.
  destruct (captions_present_when _ _ _ _ _ _ _ _ H) as [Hiff Hlen].
  split.
  - split.
    + intros Hcaps. now apply Hiff.
    + intros Hst. apply Hiff. split; [exact Hst|exact Hne].
  - intros caps Hcaps. now destruct (Hlen caps Hcaps).
Qed.

Lemma captions_iff_boosted_witness :
  [leaf_jpg; flower_jpg] <> [] /\
  doubtful_run = Ok (Returned doubtful_result) (final_state doubtful_run) /\
  (boost_captions doubtful_result <> None <->
   status doubtful_result = "boosted") /\
  (forall caps, boost_captions doubtful_result = Some caps ->
                length caps <= 2).
Proof.
  assert (Hne : [leaf_jpg; flower_jpg] <> []) by discriminate.
  assert (H : doubtful_run
              = Ok (Returned doubtful_result) (final_state doubtful_run))
    by (vm_compute; reflexivity).
  split; [exact Hne|]. split; [exact H|].
  exact (captions_iff_boosted _ _ _ _ _ _ _ _ Hne H).
Defined.

(** ** No candidate *)

(** C3. When the uploads are re-encoded and PlantNet answers with an
    empty [results] list, the handler goes on with species [None] and
    confidence 0.0: it runs the captioning loop (status ["boosted"])
    whenever [OPENAI_KEY] is set, and returns at once otherwise; every
    dict it returns has species [None] and confidence exactly 0.0. *)
Theorem empty_results_sentinel W E images organs no_reject s files s1 d :
  let url := plantnet_url E no_reject in
  let out := identify_plant W E images organs no_reject s in
  prepare_files W organs 0 images [] s = Ok files s1 ->
  http_post W (calls s1) url files = ReplyJson (JObj d) ->
  d !! "results" = Some (JArr []) ->
  out = (if truthy_str (OPENAI_KEY E) then
           (boost_captions <- caption_images W 0 images [] ;;
            ret (make_result JNull 0 "boosted" boost_captions))
             (posted s1 url files)
         else Ok (make_result JNull 0 "plantnet_only" []) (posted s1 url files)) /\
  (forall r s', out = Ok (Returned r) s' ->
     species r = JNull /\ confidence r = 0%float /\
     (truthy_str (OPENAI_KEY E) = true -> status r = "boosted")).
Proof.
  intros url out Hprep Hreply Hres.
  assert (Hout : out = (if truthy_str (OPENAI_KEY E) then
           (boost_captions <- caption_images W 0 images [] ;;
            ret (make_result JNull 0 "boosted" boost_captions))
             (posted s1 url files)
         else Ok (make_result JNull 0 "plantnet_only" []) (posted s1 url files))).
  { unfold out. rewrite (identify_plant_posted _ _ _ _ _ _ _ _ Hprep).
    cbn zeta. fold url. rewrite Hreply.
    unfold extract_top. unfold bind at 1. cbn [py_get ret].
    rewrite Hres. cbn [default truthy ret fst snd].
    unfold boost_gate.
    replace (0 <? 0.8)%float with true by reflexivity.
    reflexivity. }
  split; [exact Hout|].
  intros r s' Hr. rewrite Hout in Hr.
  destruct (truthy_str (OPENAI_KEY E)).
  - apply bind_Ok in Hr as (caps & s2 & _ & Hr).
    injection Hr as <- _. auto.
  - injection Hr as <- _. repeat split. discriminate.
Qed.

Lemma empty_results_sentinel_witness :
  let run := identify_plant no_match_world with_key [leaf_jpg] None false
                            initial_state in
  let r := mkResult JNull 0 "boosted"
             (Some [mkCaption (Some "leaf.jpg") "No caption returned"]) in
  run = Ok (Returned r) (final_state run) /\
  species r = JNull /\ confidence r = 0%float /\
  (truthy_str (OPENAI_KEY with_key) = true -> status r = "boosted").
Proof.
  cbn zeta.
  match goal with
  | |- ?run = Ok (Returned ?r) ?s' /\ _ =>
      assert (Hrun : run = Ok (Returned r) s') by (vm_compute; reflexivity)
  end.
  split; [exact Hrun|].
  refine (proj2 (empty_results_sentinel no_match_world with_key [leaf_jpg] None
                   false initial_state
                   [("images", File3 (Some "leaf.jpg") ["M"; "a"; "n"]%byte
                                     "image/jpeg")]
                   (mkState {[ 0%nat := 3%nat ]} [])
                   {[ "results" := JArr [] ]} _ _ _) _ _ Hrun).
  - vm_compute. reflexivity.
  - reflexivity.
  - vm_compute. reflexivity.
Defined.

(** ** A refusal of PlantNet *)

(** C4. When the uploads are re-encoded and PlantNet answers with a
    non-success status, the handler returns a [JSONResponse] of that
    status code whose body has the single key ["error"], and the
    request to PlantNet is the only call of the run: no caption is
    asked for. *)
Theorem classifier_error_is_terminal W E images organs no_reject s files s1
    code message :
  let url := plantnet_url E no_reject in
  let out := identify_plant W E images organs no_reject s in
  prepare_files W organs 0 images [] s = Ok files s1 ->
  http_post W (calls s1) url files = ReplyStatusError code message ->
  out = Ok (JSONResponse [("error", JStr message)] code) (posted s1 url files) /\
  response_fields (JSONResponse [("error", JStr message)] code) = ["error"] /\
  new_calls s out = [EvPost url files] /\
  (forall req, EvChat req ∉ new_calls s out).
Proof.
  intros url out Hprep Hreply.
  assert (Hout : out = Ok (JSONResponse [("error", JStr message)] code)
                          (posted s1 url files)).
  { unfold out. rewrite (identify_plant_posted _ _ _ _ _ _ _ _ Hprep).
    cbn zeta. fold url. now rewrite Hreply. }
  assert (Hcalls : new_calls s out = [EvPost url files]).
  { pose proof (identify_plant_calls W E images organs no_reject s) as Hc.
    cbn zeta in Hc. rewrite Hprep in Hc. fold url in Hc. fold out in Hc.
    destruct Hc as (reqs & Hnew & Hreqs).
    rewrite Hreply in Hreqs. subst reqs. exact Hnew. }
  split; [exact Hout|]. split; [reflexivity|]. split; [exact Hcalls|].
  intros req Hin. rewrite Hcalls in Hin.
  apply list_elem_of_singleton in Hin. discriminate.
Qed.

Lemma classifier_error_is_terminal_witness :
  let run := identify_plant forbidden_world with_key [leaf_jpg; flower_jpg]
                            (Some ["leaf"]) true initial_state in
  run = Ok (JSONResponse [("error", JStr "Client error '403 Forbidden'")] 403)
           (posted (mkState {[ 0%nat := 3%nat; 1%nat := 2%nat ]} [])
                   (plantnet_url with_key true) doubtful_payload) /\
  new_calls initial_state run
  = [EvPost (plantnet_url with_key true) doubtful_payload].
Proof.
  cbn zeta.
  pose proof (classifier_error_is_terminal forbidden_world with_key
                [leaf_jpg; flower_jpg] (Some ["leaf"]) true initial_state
                doubtful_payload
                (mkState {[ 0%nat := 3%nat; 1%nat := 2%nat ]} [])
                403%Z "Client error '403 Forbidden'") as H.
  cbn zeta in H.
  destruct H as (H1 & _ & H2 & _).
  - vm_compute. reflexivity.
  - reflexivity.
  - split; [exact H1|exact H2].
Defined.

(** ** Failures of the captioning service *)

(** C5, as the code has it. In a request that enters the captioning
    loop, an answer without text is recorded as ["No caption returned"]
    and the loop goes on with the remaining uploads; a call that raises,
    or an answer without any choice, is not caught: the loop stops
    there, and an exception of the loop is the outcome of the whole
    request. *)
Theorem caption_failure_policy W E images organs no_reject s files s1 j top :
  let url := plantnet_url E no_reject in
  prepare_files W organs 0 images [] s = Ok files s1 ->
  http_post W (calls s1) url files = ReplyJson j ->
  extract_top W j (posted s1 url files) = Ok top (posted s1 url files) ->
  boost_gate E top.2 = true ->
  (forall e s',
      caption_images W 0 images [] (posted s1 url files) = Raise e s' ->
      identify_plant W E images organs no_reject s = Raise e s') /\
  (forall idx image rest acc st,
      caption_images W idx (image :: rest) acc st =
      match chat_create W (calls st) (vision_request (content image)) with
      | ChatChoices (Some c :: _) =>
          caption_images W (S idx) rest
            (acc ++ [mkCaption (filename image) (strip c)])
            (captioned st idx image)
      | ChatChoices (None :: _) =>
          caption_images W (S idx) rest
            (acc ++ [mkCaption (filename image) "No caption returned"])
            (captioned st idx image)
      | ChatChoices [] => Raise IndexError (captioned st idx image)
      | ChatFailure => Raise OpenAIError (captioned st idx image)
      end).
Proof.
  intros url Hprep Hreply Htop Hgate. split.
  - intros e s' Hloop.
    rewrite (identify_plant_posted _ _ _ _ _ _ _ _ Hprep). cbn zeta.
    fold url. rewrite Hreply, Htop, Hgate.
    now apply bind_Raise_l.
  - intros idx image rest acc st. rewrite caption_images_step.
    destruct (chat_create W (calls st) (vision_request (content image)))
      as [[|[c|] l]|]; reflexivity.
Qed.

Lemma caption_failure_policy_witness :
  identify_plant flaky_world with_key [leaf_jpg; flower_jpg] None false
                 initial_state
  = Raise OpenAIError
      (captioned (posted (mkState {[ 0%nat := 3%nat; 1%nat := 2%nat ]} [])
                         (plantnet_url with_key false)
                         [("images", File3 (Some "leaf.jpg")
                                       ["M"; "a"; "n"]%byte "image/jpeg");
                          ("images", File3 (Some "flower.jpg")
                                       ["M"; "a"]%byte "image/jpeg")])
                 0 leaf_jpg).
Proof.
  refine (proj1 (caption_failure_policy flaky_world with_key
                   [leaf_jpg; flower_jpg] None false initial_state
                   [("images", File3 (Some "leaf.jpg")
                                 ["M"; "a"; "n"]%byte "image/jpeg");
                    ("images", File3 (Some "flower.jpg")
                                 ["M"; "a"]%byte "image/jpeg")]
                   (mkState {[ 0%nat := 3%nat; 1%nat := 2%nat ]} [])
                   (results_of []) (JNull, 0%float) _ _ _ _) _ _ _).
  - vm_compute. reflexivity.
  - reflexivity.
  - vm_compute. reflexivity.
  - reflexivity.
  - vm_compute. reflexivity.
Defined.

(** C5 fails as stated: the first of two captioning calls raises, the
    second upload, which the service would have captioned, is never
    sent, and the request ends in the exception. *)
Lemma caption_failure_escalates :
  let run := identify_plant flaky_world with_key [leaf_jpg; flower_jpg] None
                            false initial_state in
  run = Raise OpenAIError (final_state run) /\
  new_calls initial_state run
  = [EvPost (plantnet_url with_key false)
            [("images", File3 (Some "leaf.jpg") ["M"; "a"; "n"]%byte "image/jpeg");
             ("images", File3 (Some "flower.jpg") ["M"; "a"]%byte "image/jpeg")];
     EvChat (vision_request (content leaf_jpg))] /\
  caption_text (chat_create flaky_world (calls (final_state run))
                            (vision_request (content flower_jpg)))
  = Some "a fern".
Proof.
  cbn zeta. repeat split; vm_compute; reflexivity.
Qed.

(** ** Organ tags *)

Lemma organ_values_app (l1 l2 : list part) :
  organ_values (l1 ++ l2) = organ_values l1 ++ organ_values l2.
Proof. apply omap_app. Qed.

Lemma image_names_app (l1 l2 : list part) :
  image_names (l1 ++ l2) = image_names l1 ++ image_names l2.
Proof. apply omap_app. Qed.

Lemma organ_values_parts (tags : list string)
    (l : list (UploadFile * list byte)) :
  forall k,
    organ_values (concat (imap (fun i => upload_parts tags (k + i)) l))
    = take (length l) (drop k tags).
Proof.
  induction l as [|p l IH]; intros k; [reflexivity|].
  rewrite imap_cons. cbn [concat length]. rewrite organ_values_app.
  rewrite Nat.add_0_r.
  replace (imap ((fun i => upload_parts tags (k + i)) ∘ S) l)
    with (imap (fun i => upload_parts tags (S k + i)) l).
  2:{ apply imap_ext. intros i q _. simpl. f_equal. lia. }
  rewrite IH. unfold upload_parts.
  destruct (tags !! k) as [o|] eqn:Hk.
  - rewrite (drop_S _ _ _ Hk). reflexivity.
  - apply lookup_ge_None in Hk.
    rewrite !drop_ge by lia. rewrite !take_nil. reflexivity.
Qed.

Lemma image_names_parts (tags : list string)
    (l : list (UploadFile * list byte)) :
  forall k,
    image_names (concat (imap (fun i => upload_parts tags (k + i)) l))
    = (fun p => filename p.1) <$> l.
Proof.
  induction l as [|p l IH]; intros k; [reflexivity|].
  rewrite imap_cons. cbn [concat]. rewrite image_names_app.
  replace (imap ((fun i => upload_parts tags (k + i)) ∘ S) l)
    with (imap (fun i => upload_parts tags (S k + i)) l).
  2:{ apply imap_ext. intros i q _. simpl. f_equal. lia. }
  rewrite IH. unfold upload_parts.
  destruct (tags !! (k + 0)); reflexivity.
Qed.

(** C7. In the payload sent to PlantNet every upload contributes its
    image part, in the order of [images], directly followed by the organ
    tag of the same index when [organs] has one; the values of the
    [organs] fields are the tags of the same positions, and an upload
    whose index is beyond the tags has none. *)
Theorem organ_tags_positional W E images organs no_reject s url files :
  EvPost url files ∈ new_calls s (identify_plant W E images organs no_reject s) ->
  let tags := default [] organs in
  (exists bufs : list (list byte),
      length bufs = length images /\
      files = concat (imap (upload_parts tags) (zip images bufs))) /\
  image_names files = filename <$> images /\
  (forall i, i < length images -> organ_values files !! i = tags !! i) /\
  length (organ_values files) = length images `min` length tags.
Proof.
  intros Hin tags.
  pose proof (identify_plant_calls W E images organs no_reject s) as Hc.
  cbn zeta in Hc.
  destruct (prepare_files W organs 0 images [] s) as [files0 s1|e s1] eqn:Hprep.
  2:{ rewrite Hc in Hin. inversion Hin. }
  destruct Hc as (reqs & Hnew & _). rewrite Hnew in Hin.
  apply elem_of_cons in Hin as [Heq|Hin].
  2:{ apply list_elem_of_fmap in Hin as (req & Hreq & _). discriminate. }
  injection Heq as -> ->.
  apply prepare_files_spec in Hprep as (_ & bufs & Hlen & Hfiles).
  cbn [app] in Hfiles. fold tags in Hfiles.
  assert (Hzip : length (zip images bufs) = length images).
  { rewrite length_zip_with. lia. }
  assert (Hvalues : organ_values files0 = take (length images) tags).
  { rewrite Hfiles.
    rewrite (organ_values_parts tags (zip images bufs) 0).
    now rewrite Hzip, drop_0. }
  split; [exists bufs; split; [exact Hlen|exact Hfiles]|].
  split.
  { rewrite Hfiles.
    rewrite (image_names_parts tags (zip images bufs) 0).
    rewrite <- (fst_zip images bufs) at 2 by lia.
    now rewrite <- list_fmap_compose. }
  split.
  - intros i Hi. rewrite Hvalues. now apply lookup_take_lt.
  - rewrite Hvalues. apply length_take.
Qed.

Lemma organ_tags_positional_witness :
  image_names doubtful_payload = [Some "leaf.jpg"; Some "flower.jpg"] /\
  organ_values doubtful_payload !! 0%nat = Some "leaf" /\
  organ_values doubtful_payload !! 1%nat = None.
Proof.
  assert (Hin : EvPost (plantnet_url with_key true) doubtful_payload
                ∈ new_calls initial_state doubtful_run).
  { vm_compute. apply list_elem_of_here. }
  destruct (organ_tags_positional _ _ _ _ _ _ _ _ Hin) as (_ & Hn & Hv & _).
  split; [exact Hn|].
  split; [apply (Hv 0%nat)|apply (Hv 1%nat)]; simpl; lia.
Defined.

(** ** The confidence *)

(** C8, as the code has it. The confidence of a returned dict is
    [float] of the score of the first candidate, as PlantNet sent it
    (equal to the score when that is a float, so within [0,1] whenever
    the score is), and exactly 0.0 when the [results] are empty or
    missing or the first candidate has no score. *)
Theorem confidence_is_top_score W E images organs no_reject s r s' :
  identify_plant W E images organs no_reject s = Ok (Returned r) s' ->
  exists files s1 d,
    prepare_files W organs 0 images [] s = Ok files s1 /\
    http_post W (calls s1) (plantnet_url E no_reject) files = ReplyJson (JObj d) /\
    (d !! "results" = None \/ d !! "results" = Some (JArr []) ->
     confidence r = 0%float) /\
    (forall first rest,
        d !! "results" = Some (JArr (first :: rest)) ->
        exists fd, first = JObj fd /\
          to_float W (default (JFloat 0) (fd !! "score")) = inr (confidence r) /\
          (forall f, fd !! "score" = Some (JFloat f) -> confidence r = f) /\
          (fd !! "score" = None -> confidence r = 0%float)).
Proof.
  intros H.
  apply identify_plant_Returned in H
    as (files & s1 & j & best & conf & Hprep & Hreply & Htop & Hgate).
  assert (Hconf : confidence r = conf).
  { destruct Hgate as [[_ (caps & _ & ->)]|[_ [_ ->]]]; reflexivity. }
  apply extract_top_Ok in Htop as (_ & d & -> & Hcases). cbn zeta in Hcases.
  exists files, s1, d. split; [exact Hprep|]. split; [exact Hreply|].
  rewrite Hconf. split.
  - intros Hres.
    destruct Hcases as [(_ & _ & ->)|(first & rest & sp & Hr & _)];
      [reflexivity|].
    destruct Hres as [Hres|Hres]; rewrite Hres in Hr; discriminate.
  - intros first rest Hres. rewrite Hres in Hcases. cbn [default] in Hcases.
    destruct Hcases as [(Hfalse & _)|(fd & rest' & sp & Hr & Hfloat & _)];
      [discriminate|].
    injection Hr as -> _. exists fd. split; [reflexivity|].
    split; [exact Hfloat|]. split.
    + intros f Hf. rewrite Hf in Hfloat. now injection Hfloat.
    + intros Hnone. rewrite Hnone in Hfloat. now injection Hfloat.
Qed.

Lemma confidence_is_top_score_witness :
  let run := identify_plant confident_world with_key [leaf_jpg] None false
                            initial_state in
  let r := mkResult (JStr "Rosa damascena") 0.92 "plantnet_only" None in
  run = Ok (Returned r) (final_state run) /\
  exists files s1 d,
    prepare_files confident_world None 0 [leaf_jpg] [] initial_state
    = Ok files s1 /\
    http_post confident_world (calls s1) (plantnet_url with_key false) files
    = ReplyJson (JObj d) /\
    (forall first rest,
        d !! "results" = Some (JArr (first :: rest)) ->
        exists fd, first = JObj fd /\
          forall f, fd !! "score" = Some (JFloat f) -> confidence r = f).
Proof.
  cbn zeta.
  match goal with
  | |- ?run = Ok (Returned ?r) ?s' /\ _ =>
      assert (Hrun : run = Ok (Returned r) s') by (vm_compute; reflexivity)
  end.
  split; [exact Hrun|].
  destruct (confidence_is_top_score _ _ _ _ _ _ _ _ Hrun)
    as (files & s1 & d & Hprep & Hreply & _ & Hfirst).
  exists files, s1, d. split; [exact Hprep|]. split; [exact Hreply|].
  intros first rest Hres.
  destruct (Hfirst first rest Hres) as (fd & Hfd & _ & Hf & _).
  exists fd. split; [exact Hfd|exact Hf].
Defined.

(** C8 fails as stated: a score of 1.5 is returned as confidence 1.5. *)
Lemma confidence_above_one :
  let run := identify_plant overscored_world without_key [leaf_jpg] None false
                            initial_state in
  let r := mkResult (JStr "Rosa damascena") 1.5 "plantnet_only" None in
  run = Ok (Returned r) (final_state run) /\
  (confidence r <=? 1)%float = false.
Proof.
  cbn zeta. split; vm_compute; reflexivity.
Qed.

(** ** The captions *)

Lemma cap_filename_zip (names : list (option string)) :
  forall texts : list string,
    length texts = length names ->
    cap_filename <$> zip_with mkCaption names texts = names.
Proof.
  induction names as [|n names IH]; intros [|t texts] Hlen;
    try discriminate; [reflexivity|].
  cbn [zip_with fmap list_fmap]. f_equal. apply IH.
  now injection Hlen.
Qed.

(** C9. In a returned dict with captions, the captions carry the file
    names of the uploads in the order of [images]; the caption at index
    [i] is what was read in the answer to the request that carried
    upload [i], sent after the requests of the uploads before it. *)
Theorem captions_follow_images W E images organs no_reject s r s' caps :
  identify_plant W E images organs no_reject s = Ok (Returned r) s' ->
  boost_captions r = Some caps ->
  status r = "boosted" /\
  cap_filename <$> caps = filename <$> images /\
  exists history : list event,
    forall i c,
      caps !! i = Some c ->
      exists image,
        images !! i = Some image /\
        cap_filename c = filename image /\
        caption_text (chat_create W (history ++ chat_events (take i images))
                                    (vision_request (content image)))
        = Some (cap_caption c).
Proof.
  intros H Hcaps.
  apply identify_plant_Returned in H
    as (files & s1 & j & best & conf & _ & _ & _ & Hgate).
  destruct Hgate as [[_ (caps0 & Hloop & ->)]|[_ [_ ->]]]; [|discriminate].
  cbn [boost_captions status] in Hcaps |- *.
  apply caption_images_spec in Hloop as (_ & texts & Hlen & -> & Htexts).
  cbn [app] in Hcaps.
  assert (caps = zip_with mkCaption (filename <$> images) texts) as ->.
  { destruct (zip_with mkCaption (filename <$> images) texts);
      [discriminate|now injection Hcaps]. }
  split; [reflexivity|].
  split; [apply cap_filename_zip; now rewrite length_fmap|].
  exists (calls (posted s1 (plantnet_url E no_reject) files)).
  intros i c Hc.
  apply lookup_zip_with_Some in Hc as (name & text & -> & Hname & Htext).
  apply list_lookup_fmap_Some in Hname as (image & -> & Himage).
  exists image. split; [exact Himage|]. split; [reflexivity|].
  cbn [cap_caption]. rewrite <- Htext. now apply Htexts.
Qed.

Lemma captions_follow_images_witness :
  doubtful_run = Ok (Returned doubtful_result) (final_state doubtful_run) /\
  cap_filename <$> [mkCaption (Some "leaf.jpg") "a rose";
                    mkCaption (Some "flower.jpg") "a rose"]
  = filename <$> [leaf_jpg; flower_jpg].
Proof.
  assert (H : doubtful_run
              = Ok (Returned doubtful_result) (final_state doubtful_run))
    by (vm_compute; reflexivity).
  split; [exact H|].
  exact (proj1 (proj2 (captions_follow_images _ _ _ _ _ _ _ _ _ H eq_refl))).
Defined.

(** ** Missing fields of the first candidate *)

Lemma name_missing_unknown (first sp : gmap string json) :
  name_missing first ->
  default (JObj ∅) (first !! "species") = JObj sp ->
  default (JStr "Unknown") (sp !! "scientificNameWithoutAuthor") = JStr "Unknown".
Proof.
  unfold name_missing.
  destruct (first !! "species") as [[| | | | | |sp']|]; try contradiction.
  - intros Hnone [= <-]. now rewrite Hnone.
  - intros _ [= <-]. reflexivity.
Qed.

(** C10. When the [results] are not empty and the first candidate is a
    dict, a missing [score] does not fail the request: the handler goes
    on with confidence 0.0 and the species it reads; a missing nested
    scientific name does not fail it either: the handler goes on with
    species ["Unknown"] and the confidence it reads. Every dict returned
    for a missing score has confidence 0.0 and every dict returned for
    a missing name has species ["Unknown"]; with both missing the
    extraction gives ["Unknown"] and 0.0, and the handler returns at
    once when [OPENAI_KEY] is not set. *)
Theorem missing_fields_default W E images organs no_reject s files s1 d
    first rest :
  let url := plantnet_url E no_reject in
  let out := identify_plant W E images organs no_reject s in
  let go_on best confidence :=
    if boost_gate E confidence then
      (boost_captions <- caption_images W 0 images [] ;;
       ret (make_result best confidence "boosted" boost_captions))
        (posted s1 url files)
    else Ok (make_result best confidence "plantnet_only" [])
            (posted s1 url files) in
  prepare_files W organs 0 images [] s = Ok files s1 ->
  http_post W (calls s1) url files = ReplyJson (JObj d) ->
  d !! "results" = Some (JArr (JObj first :: rest)) ->
  (first !! "score" = None ->
   forall sp, default (JObj ∅) (first !! "species") = JObj sp ->
     out = go_on (default (JStr "Unknown")
                    (sp !! "scientificNameWithoutAuthor")) 0%float) /\
  (name_missing first ->
   forall f, to_float W (default (JFloat 0) (first !! "score")) = inr f ->
     out = go_on (JStr "Unknown") f) /\
  (first !! "score" = None ->
   forall r s', out = Ok (Returned r) s' -> confidence r = 0%float) /\
  (name_missing first ->
   forall r s', out = Ok (Returned r) s' -> species r = JStr "Unknown") /\
  (first !! "score" = None -> name_missing first ->
   extract_top W (JObj d) (posted s1 url files)
   = Ok (JStr "Unknown", 0%float) (posted s1 url files) /\
   (truthy_str (OPENAI_KEY E) = false ->
    out = Ok (Returned (mkResult (JStr "Unknown") 0 "plantnet_only" None))
             (posted s1 url files))).
Proof.
  intros url out go_on Hprep Hreply Hres.
  assert (Hout : forall best conf,
            extract_top W (JObj d) (posted s1 url files)
            = Ok (best, conf) (posted s1 url files) ->
            out = go_on best conf).
  { intros best conf Htop. unfold out, go_on.
    rewrite (identify_plant_posted _ _ _ _ _ _ _ _ Hprep). cbn zeta.
    fold url. rewrite Hreply, Htop. reflexivity. }
  assert (Hname : name_missing first ->
            exists sp, default (JObj ∅) (first !! "species") = JObj sp /\
              default (JStr "Unknown") (sp !! "scientificNameWithoutAuthor")
              = JStr "Unknown").
  { unfold name_missing.
    destruct (first !! "species") as [[| | | | | |sp]|]; try contradiction.
    - intros Hsp. exists sp. split; [reflexivity|]. now rewrite Hsp.
    - intros _. exists ∅. split; reflexivity. }
  assert (Hinv : forall r s', out = Ok (Returned r) s' ->
            exists sp,
              to_float W (default (JFloat 0) (first !! "score"))
              = inr (confidence r) /\
              default (JObj ∅) (first !! "species") = JObj sp /\
              species r
              = default (JStr "Unknown") (sp !! "scientificNameWithoutAuthor")).
  { intros r s' Hr.
    apply identify_plant_Returned in Hr
      as (files' & s1' & j & best & conf & Hprep' & Hreply' & Htop & Hgate).
    cbn zeta in Hprep', Hreply', Htop.
    rewrite Hprep in Hprep'. injection Hprep' as <- <-.
    fold url in Hreply', Htop.
    rewrite Hreply in Hreply'. injection Hreply' as <-.
    apply extract_top_Ok in Htop as (_ & d' & [= <-] & Hcases).
    cbn zeta in Hcases. rewrite Hres in Hcases. cbn [default] in Hcases.
    destruct Hcases as [(Hfalse & _)|(fd & rest' & sp & Hr & Hfloat & Hsp & Hbest)];
      [discriminate|].
    injection Hr as <- _. exists sp.
    destruct Hgate as [[_ (caps & _ & ->)]|[_ [_ ->]]];
      cbn [confidence species]; auto. }
  split; [|split; [|split; [|split]]].
  - intros Hscore sp Hsp. apply Hout.
    rewrite (extract_top_first _ _ _ _ _ Hres).
    rewrite Hscore. cbn [default from_option id to_float].
    now rewrite Hsp.
  - intros Hmiss f Hf. apply Hout.
    destruct (Hname Hmiss) as (sp & Hsp & Hunknown).
    rewrite (extract_top_first _ _ _ _ _ Hres).
    now rewrite Hf, Hsp, Hunknown.
  - intros Hscore r s' Hr.
    destruct (Hinv r s' Hr) as (sp & Hfloat & _).
    rewrite Hscore in Hfloat. now injection Hfloat.
  - intros Hmiss r s' Hr.
    destruct (Hinv r s' Hr) as (sp & _ & Hsp & ->).
    exact (name_missing_unknown first sp Hmiss Hsp).
  - intros Hscore Hmiss.
    destruct (Hname Hmiss) as (sp & Hsp & Hunknown).
    assert (Htop : extract_top W (JObj d) (posted s1 url files)
                   = Ok (JStr "Unknown", 0%float) (posted s1 url files)).
    { rewrite (extract_top_first _ _ _ _ _ Hres).
      rewrite Hscore. cbn [default from_option id to_float].
      now rewrite Hsp, Hunknown. }
    split; [exact Htop|].
    intros Hkey. rewrite (Hout _ _ Htop). unfold go_on, boost_gate.
    rewrite Hkey, andb_false_r. reflexivity.
Qed.

Lemma missing_fields_default_witness :
  identify_plant nameless_world with_key [leaf_jpg] None false initial_state
  = Ok (Returned (mkResult (JStr "Unknown") 0.92 "plantnet_only" None))
       (posted (mkState {[ 0%nat := 3%nat ]} [])
               (plantnet_url with_key false)
               [("images", File3 (Some "leaf.jpg") ["M"; "a"; "n"]%byte
                                 "image/jpeg")]) /\
  identify_plant unscored_world without_key [leaf_jpg] None false initial_state
  = Ok (Returned (mkResult (JStr "Rosa damascena") 0 "plantnet_only" None))
       (posted (mkState {[ 0%nat := 3%nat ]} [])
               (plantnet_url without_key false)
               [("images", File3 (Some "leaf.jpg") ["M"; "a"; "n"]%byte
                                 "image/jpeg")]).
Proof.
  split.
  - pose proof (missing_fields_default nameless_world with_key [leaf_jpg] None
                  false initial_state
                  [("images", File3 (Some "leaf.jpg") ["M"; "a"; "n"]%byte
                                    "image/jpeg")]
                  (mkState {[ 0%nat := 3%nat ]} [])
                  {[ "results" := JArr [JObj {[ "score" := JFloat 0.92 ]}] ]}
                  {[ "score" := JFloat 0.92 ]} []) as H.
    cbn zeta in H.
    destruct H as (_ & H & _).
    + vm_compute. reflexivity.
    + reflexivity.
    + vm_compute. reflexivity.
    + rewrite (H I 0.92%float); [reflexivity|vm_compute; reflexivity].
  - pose proof (missing_fields_default unscored_world without_key [leaf_jpg]
                  None false initial_state
                  [("images", File3 (Some "leaf.jpg") ["M"; "a"; "n"]%byte
                                    "image/jpeg")]
                  (mkState {[ 0%nat := 3%nat ]} [])
                  {[ "results" := JArr
                       [JObj {[ "species" :=
                                  JObj {[ "scientificNameWithoutAuthor"
                                          := JStr "Rosa damascena" ]} ]}] ]}
                  {[ "species" := JObj {[ "scientificNameWithoutAuthor"
                                          := JStr "Rosa damascena" ]} ]}
                  []) as H.
    cbn zeta in H.
    destruct H as (H & _).
    + vm_compute. reflexivity.
    + reflexivity.
    + vm_compute. reflexivity.
    + rewrite (H eq_refl {[ "scientificNameWithoutAuthor"
                            := JStr "Rosa damascena" ]});
        [reflexivity|vm_compute; reflexivity].
Defined.

(** ** What is asked of Pillow *)

Lemma cursor_of_insert_ne (m : gmap nat nat) (l : list event) (i j pos : nat) :
  i <> j -> cursor_of (mkState (<[i := pos]> m) l) j = cursor_of (mkState m l) j.
Proof.
  intros Hne. unfold cursor_of. cbn [cursors]. now rewrite lookup_insert_ne.
Qed.

(** Every image part of the payload holds what Pillow made of the bytes
    of its upload when asked for ["RGB"], a box of 1280 by 1280, ["JPEG"]
    and quality 90; the resizing itself is Pillow's. *)
Lemma prepare_files_normalizes (W : World) (organs : option (list string))
    (images : list UploadFile) :
  forall idx files s out s',
    prepare_files W organs idx images files s = Ok out s' ->
    forall i image,
      images !! i = Some image ->
      exists img1 img2 img3 buf,
        Image_open W (drop (cursor_of s (idx + i)) (content image)) = Some img1 /\
        convert W img1 "RGB" = Some img2 /\
        thumbnail W img2 (1280, 1280)%Z = Some img3 /\
        save W img3 "JPEG" 90%Z = Some buf /\
        ("images", File3 (filename image) buf "image/jpeg") ∈ out.
Proof.
  induction images as [|image0 rest IH]; intros idx files s out s' H i image Hi;
    [discriminate|].
  cbn [prepare_files] in H.
  apply bind_Ok in H as (raw & s1 & Hread & H).
  injection Hread as <- <-.
  apply bind_Ok in H as (img1 & s2 & H1 & H). apply lift_option_Ok in H1 as [H1 ->].
  apply bind_Ok in H as (img2 & s2 & H2 & H). apply lift_option_Ok in H2 as [H2 ->].
  apply bind_Ok in H as (img3 & s2 & H3 & H). apply lift_option_Ok in H3 as [H3 ->].
  apply bind_Ok in H as (buf & s2 & H4 & H). apply lift_option_Ok in H4 as [H4 ->].
  destruct i as [|i].
  - injection Hi as <-. rewrite Nat.add_0_r.
    exists img1, img2, img3, buf. repeat (split; [assumption|]).
    apply prepare_files_spec in H as (_ & bufs & _ & ->).
    apply elem_of_app. left.
    destruct (organ_at organs idx); rewrite ?elem_of_app, !list_elem_of_singleton;
      auto.
  - change (rest !! i = Some image) in Hi.
    destruct (IH _ _ _ _ _ H i image Hi)
      as (j1 & j2 & j3 & b & Ho & Hc & Ht & Hs & Hin).
    exists j1, j2, j3, b. split; [|auto].
    rewrite <- Ho. f_equal. f_equal.
    replace (idx + S i) with (S idx + i) by lia.
    destruct s as [m l]. cbn [cursors calls].
    symmetry. apply cursor_of_insert_ne. lia.
Qed.

(** ** Which calls a request makes *)

Lemma prepare_files_raises W organs images :
  forall idx files s e s',
    prepare_files W organs idx images files s = Raise e s' -> e = PILError.
Proof.
  induction images as [|image rest IH]; intros idx files s e s' H;
    [discriminate|].
  cbn [prepare_files] in H. unfold bind at 1 in H. cbn [file_read] in H.
  repeat (unfold bind at 1 in H;
          match type of H with
          | context [lift_option PILError ?o] =>
              destruct o; cbn [lift_option ret raise] in H
          end; [|now injection H]).
  exact (IH _ _ _ _ _ H).
Qed.

(** The loop asks for the captions of a prefix of [images], in order. *)
Lemma caption_images_calls_prefix W images :
  forall idx acc s,
    exists k,
      k <= length images /\
      calls (final_state (caption_images W idx images acc s))
      = calls s ++ chat_events (take k images).
Proof.
  induction images as [|image rest IH]; intros idx acc s.
  - exists 0. split; [reflexivity|]. simpl. now rewrite app_nil_r.
  - rewrite caption_images_step.
    destruct (chat_create W (calls s) (vision_request (content image)))
      as [[|c l]|].
    + exists 1. split; [simpl; lia|]. reflexivity.
    + destruct (IH (S idx)
                  (acc ++ [mkCaption (filename image)
                             (match c with
                              | Some c => strip c
                              | None => "No caption returned"
                              end)])
                  (captioned s idx image)) as (k & Hk & Hcalls).
      exists (S k). split; [simpl; lia|].
      rewrite Hcalls. cbn [captioned calls take chat_events fmap list_fmap].
      now rewrite <- app_assoc.
    + exists 1. split; [simpl; lia|]. reflexivity.
Qed.

(** The calls of a run, whatever its outcome. *)
Lemma identify_plant_trace W E images organs no_reject s :
  let out := identify_plant W E images organs no_reject s in
  let url := plantnet_url E no_reject in
  match prepare_files W organs 0 images [] s with
  | Raise e _ => e = PILError /\ new_calls s out = []
  | Ok files s1 =>
      match http_post W (calls s1) url files with
      | ReplyJson j =>
          match extract_top W j (posted s1 url files) with
          | Ok top _ =>
              if boost_gate E top.2 then
                exists k, k <= length images /\
                  new_calls s out = EvPost url files :: chat_events (take k images)
              else new_calls s out = [EvPost url files]
          | Raise _ _ => new_calls s out = [EvPost url files]
          end
      | _ => new_calls s out = [EvPost url files]
      end
  end.
Proof.
  cbn zeta. unfold new_calls.
  pose proof (prepare_files_calls W organs images 0 [] s) as Hcalls.
  destruct (prepare_files W organs 0 images [] s) as [files s1|e s1] eqn:Hprep;
    cbn [final_state] in Hcalls.
  2:{ rewrite (identify_plant_unprepared _ _ _ _ _ _ _ _ Hprep).
      cbn [final_state]. rewrite Hcalls.
      split; [exact (prepare_files_raises _ _ _ _ _ _ _ _ Hprep)|apply drop_all]. }
  rewrite (identify_plant_posted _ _ _ _ _ _ _ _ Hprep). cbn zeta.
  set (url := plantnet_url E no_reject).
  assert (Hdrop : forall l, drop (length (calls s)) (calls s1 ++ EvPost url files :: l)
                            = EvPost url files :: l).
  { intros l. rewrite Hcalls. now rewrite drop_app_length. }
  destruct (http_post W (calls s1) url files) as [j|code message|e];
    [|apply Hdrop..].
  pose proof (stateless_extract_top W j (posted s1 url files)) as Hst.
  destruct (extract_top W j (posted s1 url files)) as [top s3|e s3];
    cbn [final_state] in Hst; subst s3; [|apply Hdrop].
  destruct (boost_gate E top.2); [|apply Hdrop].
  destruct (caption_images_calls_prefix W images 0 [] (posted s1 url files))
    as (k & Hk & Hprefix).
  exists k. split; [exact Hk|].
  unfold bind.
  destruct (caption_images W 0 images [] (posted s1 url files))
    as [caps s4|e s4]; cbn [final_state ret] in Hprefix |- *;
    rewrite Hprefix; cbn [posted calls]; rewrite <- app_assoc; apply Hdrop.
Qed.

(** X1. An upload that Pillow cannot open ends the request with the
    exception, before anything is sent to PlantNet or to the captioning
    service. *)
Theorem undecodable_upload_aborts W E images organs no_reject s k image :
  images !! k = Some image ->
  Image_open W (drop (cursor_of s k) (content image)) = None ->
  exists s',
    identify_plant W E images organs no_reject s = Raise PILError s' /\
    new_calls s (identify_plant W E images organs no_reject s) = [].
Proof.
  intros Hk Hopen.
  pose proof (identify_plant_trace W E images organs no_reject s) as Htrace.
  cbn zeta in Htrace.
  destruct (prepare_files W organs 0 images [] s) as [files s1|e s1] eqn:Hprep.
  - destruct (prepare_files_normalizes _ _ _ _ _ _ _ _ Hprep k image Hk)
      as (img1 & _ & _ & _ & Himg & _).
    cbn [Nat.add] in Himg. congruence.
  - destruct Htrace as [-> Hnone]. exists s1.
    split; [exact (identify_plant_unprepared _ _ _ _ _ _ _ _ Hprep)|exact Hnone].
Qed.

Lemma undecodable_upload_aborts_witness :
  exists s',
    identify_plant blind_world with_key [leaf_jpg; flower_jpg] None false
                   initial_state = Raise PILError s' /\
    new_calls initial_state
              (identify_plant blind_world with_key [leaf_jpg; flower_jpg] None
                              false initial_state) = [].
Proof.
  apply (undecodable_upload_aborts blind_world with_key [leaf_jpg; flower_jpg]
           None false initial_state 1%nat flower_jpg); reflexivity.
Defined.

(** X2. Whatever its outcome, a request sends at most one request to
    PlantNet, to the URL built from the key and the flag, and sends it
    first; the captioning requests that follow are those of a prefix of
    [images], in order, each carrying the whole bytes of its upload. *)
Theorem calls_of_a_request W E images organs no_reject s :
  let out := identify_plant W E images organs no_reject s in
  new_calls s out = [] \/
  exists files k,
    k <= length images /\
    new_calls s out
    = EvPost (plantnet_url E no_reject) files :: chat_events (take k images).
Proof.
  cbn zeta.
  pose proof (identify_plant_trace W E images organs no_reject s) as Htrace.
  cbn zeta in Htrace.
  destruct (prepare_files W organs 0 images [] s) as [files s1|e s1];
    [|left; tauto].
  right. exists files.
  assert (Hpost : new_calls s (identify_plant W E images organs no_reject s)
                  = [EvPost (plantnet_url E no_reject) files] ->
                  exists k, k <= length images /\
                    new_calls s (identify_plant W E images organs no_reject s)
                    = EvPost (plantnet_url E no_reject) files
                      :: chat_events (take k images)).
  { intros ->. exists 0. split; [lia|]. now rewrite take_0. }
  destruct (http_post W (calls s1) (plantnet_url E no_reject) files)
    as [j|code message|e]; [|auto..].
  destruct (extract_top W j (posted s1 (plantnet_url E no_reject) files))
    as [top s3|e s3]; [|auto].
  destruct (boost_gate E top.2); auto.
Qed.

(** X3. A request that returns the dict has sent the request to
    PlantNet and then, when its status is ["boosted"], exactly one
    captioning request per upload, in the order of [images]; when its
    status is ["plantnet_only"], nothing more. *)
Theorem calls_of_a_returned_request W E images organs no_reject s r s' :
  identify_plant W E images organs no_reject s = Ok (Returned r) s' ->
  exists files,
    (status r = "boosted" ->
     new_calls s (Ok (Returned r) s')
     = EvPost (plantnet_url E no_reject) files :: chat_events images) /\
    (status r = "plantnet_only" ->
     new_calls s (Ok (Returned r) s')
     = [EvPost (plantnet_url E no_reject) files]).
Proof.
  intros H.
  apply identify_plant_Returned in H
    as (files & s1 & j & best & conf & Hprep & _ & _ & Hgate).
  cbn zeta in Hprep, Hgate. exists files.
  pose proof (prepare_files_calls W organs images 0 [] s) as Hcalls.
  rewrite Hprep in Hcalls. cbn [final_state] in Hcalls.
  unfold new_calls. cbn [final_state].
  destruct Hgate as [[_ (caps & Hloop & ->)]|[_ [-> ->]]]; cbn [status].
  - split; [intros _|discriminate].
    apply caption_images_spec in Hloop as (-> & _).
    cbn [posted calls]. rewrite Hcalls, <- app_assoc.
    now rewrite drop_app_length.
  - split; [discriminate|intros _].
    cbn [posted calls]. rewrite Hcalls. now rewrite drop_app_length.
Qed.

Lemma calls_of_a_returned_request_witness :
  new_calls initial_state doubtful_run
  = EvPost (plantnet_url with_key true) doubtful_payload
    :: chat_events [leaf_jpg; flower_jpg].
Proof.
  assert (H : doubtful_run
              = Ok (Returned doubtful_result) (final_state doubtful_run))
    by (vm_compute; reflexivity).
  destruct (calls_of_a_returned_request _ _ _ _ _ _ _ _ H) as (files & Hb & _).
  rewrite H. rewrite (Hb eq_refl). f_equal.
  specialize (Hb eq_refl). rewrite <- H in Hb.
  vm_compute in Hb. injection Hb as <-. reflexivity.
Defined.

(** X4. A captioning request is sent only behind the gate: only when
    [OPENAI_KEY] is set, PlantNet answered with a body and the extracted
    confidence is strictly below 0.8; and what it carries is the bytes
    of one of the uploads. *)
Theorem captioning_only_behind_gate W E images organs no_reject s req :
  EvChat req ∈ new_calls s (identify_plant W E images organs no_reject s) ->
  truthy_str (OPENAI_KEY E) = true /\
  (exists files s1 j top,
      prepare_files W organs 0 images [] s = Ok files s1 /\
      http_post W (calls s1) (plantnet_url E no_reject) files = ReplyJson j /\
      extract_top W j (posted s1 (plantnet_url E no_reject) files)
      = Ok top (posted s1 (plantnet_url E no_reject) files) /\
      (top.2 <? 0.8)%float = true) /\
  exists image, image ∈ images /\ req = vision_request (content image).
Proof.
  intros Hin.
  pose proof (identify_plant_trace W E images organs no_reject s) as Htrace.
  cbn zeta in Htrace.
  assert (Hnone : forall l : list event,
            new_calls s (identify_plant W E images organs no_reject s) = l ->
            EvChat req ∉ l -> False) by (intros l <-; auto).
  destruct (prepare_files W organs 0 images [] s) as [files s1|e s1] eqn:Hprep.
  2:{ destruct Htrace as [_ Ht]. exfalso. apply (Hnone _ Ht). apply not_elem_of_nil. }
  assert (Hsingle : EvChat req ∉ [EvPost (plantnet_url E no_reject) files]).
  { intros Hx. apply list_elem_of_singleton in Hx. discriminate. }
  destruct (http_post W (calls s1) (plantnet_url E no_reject) files)
    as [j|code message|e] eqn:Hreply;
    [|exfalso; exact (Hnone _ Htrace Hsingle)..].
  pose proof (stateless_extract_top W j
                (posted s1 (plantnet_url E no_reject) files)) as Hst.
  destruct (extract_top W j (posted s1 (plantnet_url E no_reject) files))
    as [top s3|e s3] eqn:Htop; cbn [final_state] in Hst; subst;
    [|exfalso; exact (Hnone _ Htrace Hsingle)].
  destruct (boost_gate E top.2) eqn:Hgate;
    [|exfalso; exact (Hnone _ Htrace Hsingle)].
  unfold boost_gate in Hgate. apply andb_true_iff in Hgate as [Hlt Hkey].
  destruct Htrace as (k & _ & Hnew). rewrite Hnew in Hin.
  apply elem_of_cons in Hin as [Heq|Hin]; [discriminate|].
  unfold chat_events in Hin.
  apply list_elem_of_fmap in Hin as (image & Hreq & Himage).
  injection Hreq as ->.
  split; [exact Hkey|]. split.
  - exists files, s1, j, top. auto.
  - exists image. split; [|reflexivity].
    exact (subseteq_take k images image Himage).
Qed.

Lemma captioning_only_behind_gate_witness :
  truthy_str (OPENAI_KEY with_key) = true /\
  exists image, image ∈ [leaf_jpg; flower_jpg] /\
    vision_request (content flower_jpg) = vision_request (content image).
Proof.
  assert (Hin : EvChat (vision_request (content flower_jpg))
                ∈ new_calls initial_state doubtful_run).
  { vm_compute. do 2 apply list_elem_of_further. apply list_elem_of_here. }
  destruct (captioning_only_behind_gate _ _ _ _ _ _ _ Hin) as (Hkey & _ & Himg).
  split; [exact Hkey|exact Himg].
Defined.

(** ** Answers of PlantNet the handler does not accept *)

Lemma extract_top_falsy W d s :
  truthy (default JNull (d !! "results")) = false ->
  extract_top W (JObj d) s = Ok (JNull, 0%float) s.
Proof.
  intros Hres. unfold extract_top. unfold bind at 1. cbn [py_get ret].
  now rewrite Hres.
Qed.

(** A request whose extraction raises ends in that exception, with the
    request to PlantNet as its only call. *)
Lemma identify_plant_extraction_raises W E images organs no_reject s files s1
    j e s3 :
  let url := plantnet_url E no_reject in
  let out := identify_plant W E images organs no_reject s in
  prepare_files W organs 0 images [] s = Ok files s1 ->
  http_post W (calls s1) url files = ReplyJson j ->
  extract_top W j (posted s1 url files) = Raise e s3 ->
  out = Raise e (posted s1 url files) /\ new_calls s out = [EvPost url files].
Proof.
  intros url out Hprep Hreply Htop.
  pose proof (stateless_extract_top W j (posted s1 url files)) as Hst.
  rewrite Htop in Hst. cbn [final_state] in Hst. subst s3.
  pose proof (identify_plant_trace W E images organs no_reject s) as Htrace.
  cbn zeta in Htrace. rewrite Hprep in Htrace. fold url in Htrace.
  rewrite Hreply, Htop in Htrace. fold out in Htrace.
  split; [|exact Htrace].
  unfold out. rewrite (identify_plant_posted _ _ _ _ _ _ _ _ Hprep).
  cbn zeta. fold url. now rewrite Hreply, Htop.
Qed.

(** X5. A failure of the call to PlantNet other than a status error
    (no connection, a timeout, a body that is not JSON) is not caught:
    the request ends in that exception, and no caption is asked for. *)
Theorem transport_failure_propagates W E images organs no_reject s files s1 e :
  let url := plantnet_url E no_reject in
  let out := identify_plant W E images organs no_reject s in
  prepare_files W organs 0 images [] s = Ok files s1 ->
  http_post W (calls s1) url files = ReplyFailure e ->
  out = Raise e (posted s1 url files) /\ new_calls s out = [EvPost url files].
Proof.
  intros url out Hprep Hreply.
  pose proof (identify_plant_trace W E images organs no_reject s) as Htrace.
  cbn zeta in Htrace. rewrite Hprep in Htrace. fold url in Htrace.
  rewrite Hreply in Htrace. fold out in Htrace.
  split; [|exact Htrace].
  unfold out. rewrite (identify_plant_posted _ _ _ _ _ _ _ _ Hprep).
  cbn zeta. fold url. now rewrite Hreply.
Qed.

Lemma transport_failure_propagates_witness :
  let run := identify_plant unreachable_world with_key [leaf_jpg] None false
                            initial_state in
  run = Raise RequestError (final_state run) /\
  new_calls initial_state run
  = [EvPost (plantnet_url with_key false)
            [("images", File3 (Some "leaf.jpg") ["M"; "a"; "n"]%byte
                              "image/jpeg")]].
Proof.
  cbn zeta.
  destruct (transport_failure_propagates unreachable_world with_key [leaf_jpg]
              None false initial_state
              [("images", File3 (Some "leaf.jpg") ["M"; "a"; "n"]%byte
                                "image/jpeg")]
              (mkState {[ 0%nat := 3%nat ]} []) RequestError) as [H1 H2].
  - vm_compute. reflexivity.
  - reflexivity.
  - split; [rewrite H1 at 1; reflexivity|exact H2].
Defined.

(** X6. The handler answers with a [JSONResponse] only when PlantNet
    answered with a status error: the status code is the one of that
    error and the body is its message under the key ["error"]. *)
Theorem error_response_only_on_status_error W E images organs no_reject s
    body code s' :
  identify_plant W E images organs no_reject s = Ok (JSONResponse body code) s' ->
  exists files s1 message,
    prepare_files W organs 0 images [] s = Ok files s1 /\
    http_post W (calls s1) (plantnet_url E no_reject) files
    = ReplyStatusError code message /\
    body = [("error", JStr message)].
Proof.
  intros H.
  destruct (prepare_files W organs 0 images [] s) as [files s1|e s1] eqn:Hprep.
  2:{ rewrite (identify_plant_unprepared _ _ _ _ _ _ _ _ Hprep) in H.
      discriminate. }
  rewrite (identify_plant_posted _ _ _ _ _ _ _ _ Hprep) in H. cbn zeta in H.
  exists files, s1.
  destruct (http_post W (calls s1) (plantnet_url E no_reject) files)
    as [j|code' message|e]; try discriminate.
  - destruct (extract_top W j (posted s1 (plantnet_url E no_reject) files))
      as [top s3|e s3]; [|discriminate].
    destruct (boost_gate E top.2); [|discriminate].
    apply bind_Ok in H as (caps & s4 & _ & H). discriminate.
  - injection H as <- <- _. exists message. auto.
Qed.

Lemma error_response_only_on_status_error_witness :
  exists files s1 message,
    prepare_files forbidden_world (Some ["leaf"]) 0 [leaf_jpg; flower_jpg] []
                  initial_state = Ok files s1 /\
    http_post forbidden_world (calls s1) (plantnet_url with_key true) files
    = ReplyStatusError 403 message /\
    [("error", JStr "Client error '403 Forbidden'")] = [("error", JStr message)].
Proof.
  apply (error_response_only_on_status_error forbidden_world with_key
           [leaf_jpg; flower_jpg] (Some ["leaf"]) true initial_state _ _
           (posted (mkState {[ 0%nat := 3%nat; 1%nat := 2%nat ]} [])
                   (plantnet_url with_key true) doubtful_payload)).
  vm_compute. reflexivity.
Defined.

(** X7. A score that [float] rejects fails the request with the
    exception of [float], after the request to PlantNet and before any
    captioning: the default 0.0 stands in for a missing key only, so a
    score that is present but null raises [TypeError]. *)
Theorem rejected_score_fails W E images organs no_reject s files s1 d
    first rest e :
  let url := plantnet_url E no_reject in
  let out := identify_plant W E images organs no_reject s in
  prepare_files W organs 0 images [] s = Ok files s1 ->
  http_post W (calls s1) url files = ReplyJson (JObj d) ->
  d !! "results" = Some (JArr (JObj first :: rest)) ->
  to_float W (default (JFloat 0) (first !! "score")) = inl e ->
  out = Raise e (posted s1 url files) /\
  new_calls s out = [EvPost url files] /\
  (first !! "score" = Some JNull -> e = TypeError).
Proof.
  intros url out Hprep Hreply Hres Hfloat.
  assert (Htop : extract_top W (JObj d) (posted s1 url files)
                 = Raise e (posted s1 url files)).
  { rewrite (extract_top_first _ _ _ _ _ Hres). now rewrite Hfloat. }
  destruct (identify_plant_extraction_raises _ _ _ _ _ _ _ _ _ _ _
              Hprep Hreply Htop) as [H1 H2].
  split; [exact H1|]. split; [exact H2|].
  intros Hnull. rewrite Hnull in Hfloat. now injection Hfloat.
Qed.

Lemma rejected_score_fails_witness :
  let run := identify_plant null_score_world with_key [leaf_jpg] None false
                            initial_state in
  run = Raise TypeError (final_state run).
Proof.
  cbn zeta.
  destruct (rejected_score_fails null_score_world with_key [leaf_jpg] None
              false initial_state
              [("images", File3 (Some "leaf.jpg") ["M"; "a"; "n"]%byte
                                "image/jpeg")]
              (mkState {[ 0%nat := 3%nat ]} [])
              {[ "results" := JArr [candidate JNull "Rosa damascena"] ]}
              {[ "score" := JNull;
                 "species" := JObj {[ "scientificNameWithoutAuthor"
                                      := JStr "Rosa damascena" ]} ]}
              [] TypeError) as (H1 & _ & _).
  - vm_compute. reflexivity.
  - reflexivity.
  - vm_compute. reflexivity.
  - vm_compute. reflexivity.
  - rewrite H1 at 1. reflexivity.
Defined.

(** X8. A [species] entry that is present but is not a dict (null, a
    string) fails the request with [AttributeError], although the score
    was read: the default dict stands in for a missing key only. *)
Theorem species_not_a_dict_fails W E images organs no_reject s files s1 d
    first rest f v :
  let url := plantnet_url E no_reject in
  let out := identify_plant W E images organs no_reject s in
  prepare_files W organs 0 images [] s = Ok files s1 ->
  http_post W (calls s1) url files = ReplyJson (JObj d) ->
  d !! "results" = Some (JArr (JObj first :: rest)) ->
  to_float W (default (JFloat 0) (first !! "score")) = inr f ->
  first !! "species" = Some v ->
  (forall sp, v <> JObj sp) ->
  out = Raise AttributeError (posted s1 url files) /\
  new_calls s out = [EvPost url files].
Proof.
  intros url out Hprep Hreply Hres Hfloat Hsp Hv.
  assert (Htop : extract_top W (JObj d) (posted s1 url files)
                 = Raise AttributeError (posted s1 url files)).
  { rewrite (extract_top_first _ _ _ _ _ Hres). rewrite Hfloat, Hsp.
    cbn [default from_option id].
    destruct v; try reflexivity. now destruct (Hv d0). }
  exact (identify_plant_extraction_raises _ _ _ _ _ _ _ _ _ _ _
           Hprep Hreply Htop).
Qed.

Lemma species_not_a_dict_fails_witness :
  let run := identify_plant null_species_world without_key [leaf_jpg] None
                            false initial_state in
  run = Raise AttributeError (final_state run).
Proof.
  cbn zeta.
  destruct (species_not_a_dict_fails null_species_world without_key [leaf_jpg]
              None false initial_state
              [("images", File3 (Some "leaf.jpg") ["M"; "a"; "n"]%byte
                                "image/jpeg")]
              (mkState {[ 0%nat := 3%nat ]} [])
              {[ "results" := JArr [JObj {[ "score" := JFloat 0.92;
                                            "species" := JNull ]}] ]}
              {[ "score" := JFloat 0.92; "species" := JNull ]}
              [] 0.92%float JNull) as (H1 & _).
  - vm_compute. reflexivity.
  - reflexivity.
  - vm_compute. reflexivity.
  - vm_compute. reflexivity.
  - vm_compute. reflexivity.
  - discriminate.
  - rewrite H1 at 1. reflexivity.
Defined.

(** ** Results that count as no candidate *)

(** X9. A [results] entry that is missing or false in Python's sense
    (null, an empty list, an empty dict or string, zero, false) is taken
    as no candidate: every returned dict has species [None] and
    confidence 0.0, its status is ["boosted"] exactly when [OPENAI_KEY]
    is set, and without the key the handler returns at once. *)
Theorem falsy_results_mean_no_match W E images organs no_reject s files s1 d :
  let url := plantnet_url E no_reject in
  let out := identify_plant W E images organs no_reject s in
  prepare_files W organs 0 images [] s = Ok files s1 ->
  http_post W (calls s1) url files = ReplyJson (JObj d) ->
  truthy (default JNull (d !! "results")) = false ->
  (forall r s', out = Ok (Returned r) s' ->
     species r = JNull /\ confidence r = 0%float /\
     (status r = "boosted" <-> truthy_str (OPENAI_KEY E) = true)) /\
  (truthy_str (OPENAI_KEY E) = false ->
   out = Ok (Returned (mkResult JNull 0 "plantnet_only" None))
            (posted s1 url files)).
Proof.
  intros url out Hprep Hreply Hres.
  assert (Hout : out = (if truthy_str (OPENAI_KEY E) then
           (boost_captions <- caption_images W 0 images [] ;;
            ret (make_result JNull 0 "boosted" boost_captions))
             (posted s1 url files)
         else Ok (make_result JNull 0 "plantnet_only" []) (posted s1 url files))).
  { unfold out. rewrite (identify_plant_posted _ _ _ _ _ _ _ _ Hprep).
    cbn zeta. fold url. rewrite Hreply.
    rewrite (extract_top_falsy _ _ _ Hres). cbn [fst snd].
    unfold boost_gate.
    replace (0 <? 0.8)%float with true by reflexivity.
    reflexivity. }
  split.
  - intros r s' Hr. rewrite Hout in Hr.
    destruct (truthy_str (OPENAI_KEY E)).
    + apply bind_Ok in Hr as (caps & s2 & _ & Hr).
      injection Hr as <- _. cbn [species confidence status]. tauto.
    + injection Hr as <- _. cbn [species confidence status].
      repeat split; discriminate.
  - intros Hkey. rewrite Hout, Hkey. reflexivity.
Qed.

Lemma falsy_results_mean_no_match_witness :
  identify_plant (stub_world (ReplyJson (JObj ∅)) (always None)) without_key
                 [leaf_jpg] None false initial_state
  = Ok (Returned (mkResult JNull 0 "plantnet_only" None))
       (posted (mkState {[ 0%nat := 3%nat ]} [])
               (plantnet_url without_key false)
               [("images", File3 (Some "leaf.jpg") ["M"; "a"; "n"]%byte
                                 "image/jpeg")]).
Proof.
  refine (proj2 (falsy_results_mean_no_match
                   (stub_world (ReplyJson (JObj ∅)) (always None)) without_key
                   [leaf_jpg] None false initial_state
                   [("images", File3 (Some "leaf.jpg") ["M"; "a"; "n"]%byte
                                     "image/jpeg")]
                   (mkState {[ 0%nat := 3%nat ]} []) ∅ _ _ _) _).
  - vm_compute. reflexivity.
  - reflexivity.
  - reflexivity.
  - reflexivity.
Defined.

(** ** A score that is not a number *)

Lemma SFeqb_refl_not_nan (x : spec_float) :
  SFeqb x x = false -> x = S754_nan.
Proof.
  destruct x as [sg|sg| |sg m e]; try (destruct sg; discriminate);
    [reflexivity|].
  unfold SFeqb, SFcompare.
  destruct sg; rewrite Z.compare_refl, Pos.compare_cont_refl; discriminate.
Qed.

Lemma nan_not_below (f g : float) :
  is_nan f = true -> (f <? g)%float = false.
Proof.
  unfold is_nan. rewrite FloatAxioms.eqb_spec, FloatAxioms.ltb_spec. intros H.
  apply negb_true_iff in H. apply SFeqb_refl_not_nan in H.
  now rewrite H.
Qed.

(** X10. A score that is NaN never opens the gate: a dict returned with
    a NaN confidence has status ["plantnet_only"] and no captions, with
    or without [OPENAI_KEY]. *)
Theorem nan_score_is_not_boosted W E images organs no_reject s r s' :
  identify_plant W E images organs no_reject s = Ok (Returned r) s' ->
  is_nan (confidence r) = true ->
  status r = "plantnet_only" /\ boost_captions r = None.
Proof.
  intros H Hnan.
  apply identify_plant_Returned in H
    as (files & s1 & j & best & conf & _ & _ & _ & Hgate).
  destruct Hgate as [[Hg (caps & _ & ->)]|[_ [_ ->]]]; [|auto].
  cbn [confidence] in Hnan. unfold boost_gate in Hg.
  rewrite (nan_not_below _ _ Hnan) in Hg. discriminate.
Qed.

Lemma nan_score_is_not_boosted_witness :
  let run := identify_plant nan_world with_key [leaf_jpg] None false
                            initial_state in
  let r := mkResult (JStr "Rosa damascena") nan "plantnet_only" None in
  run = Ok (Returned r) (final_state run) /\
  status r = "plantnet_only" /\ boost_captions r = None.
Proof.
  cbn zeta.
  match goal with
  | |- ?run = Ok (Returned ?r) ?s' /\ _ =>
      assert (Hrun : run = Ok (Returned r) s') by (vm_compute; reflexivity)
  end.
  split; [exact Hrun|].
  apply (nan_score_is_not_boosted _ _ _ _ _ _ _ _ Hrun). reflexivity.
Defined.

(** ** When the captioning service answers *)

Lemma caption_images_answered W images :
  forall idx acc s,
    (forall i image,
        images !! i = Some image ->
        exists c l,
          chat_create W (calls s ++ chat_events (take i images))
                        (vision_request (content image))
          = ChatChoices (c :: l)) ->
    exists caps s',
      caption_images W idx images acc s = Ok (acc ++ caps) s' /\
      length caps = length images.
Proof.
  induction images as [|image rest IH]; intros idx acc s Hans.
  - exists [], s. split; [|reflexivity]. simpl. now rewrite app_nil_r.
  - rewrite caption_images_step.
    destruct (Hans 0 image eq_refl) as (c & l & Hreply).
    cbn [take chat_events fmap list_fmap] in Hreply.
    rewrite app_nil_r in Hreply. rewrite Hreply.
    destruct (IH (S idx)
                (acc ++ [mkCaption (filename image)
                           (match c with
                            | Some c => strip c
                            | None => "No caption returned"
                            end)])
                (captioned s idx image)) as (caps & s' & Hloop & Hlen).
    { intros i image' Hi. destruct (Hans (S i) image' Hi) as (c' & l' & Hr).
      exists c', l'. rewrite <- Hr. cbn [captioned calls].
      unfold chat_events. cbn [take fmap list_fmap].
      now rewrite <- app_assoc. }
    eexists (_ :: caps), s'. rewrite Hloop, <- app_assoc.
    split; [reflexivity|]. simpl. now rewrite Hlen.
Qed.

(** X11. When the gate is open and every captioning call of the
    request is answered with at least one choice, the request returns:
    status ["boosted"], the extracted species and confidence, and one
    caption per upload. *)
Theorem answered_captions_return W E images organs no_reject s files s1 j top :
  let url := plantnet_url E no_reject in
  let out := identify_plant W E images organs no_reject s in
  prepare_files W organs 0 images [] s = Ok files s1 ->
  http_post W (calls s1) url files = ReplyJson j ->
  extract_top W j (posted s1 url files) = Ok top (posted s1 url files) ->
  boost_gate E top.2 = true ->
  (forall i image,
      images !! i = Some image ->
      exists c l,
        chat_create W (calls s1 ++ EvPost url files :: chat_events (take i images))
                      (vision_request (content image))
        = ChatChoices (c :: l)) ->
  exists caps s',
    out = Ok (make_result top.1 top.2 "boosted" caps) s' /\
    length caps = length images.
Proof.
  intros url out Hprep Hreply Htop Hgate Hans.
  destruct (caption_images_answered W images 0 [] (posted s1 url files))
    as (caps & s' & Hloop & Hlen).
  { intros i image Hi. destruct (Hans i image Hi) as (c & l & Hr).
    exists c, l. rewrite <- Hr. cbn [posted calls]. now rewrite <- app_assoc. }
  exists caps, s'. split; [|exact Hlen].
  unfold out. rewrite (identify_plant_posted _ _ _ _ _ _ _ _ Hprep).
  cbn zeta. fold url. rewrite Hreply, Htop, Hgate.
  now rewrite (bind_Ok_l _ _ _ _ _ Hloop).
Qed.

Lemma answered_captions_return_witness :
  exists caps s',
    doubtful_run
    = Ok (make_result (JStr "Rosa damascena") 0.4 "boosted" caps) s' /\
    length caps = 2%nat.
Proof.
  refine (answered_captions_return doubtful_world with_key
            [leaf_jpg; flower_jpg] (Some ["leaf"]) true initial_state
            doubtful_payload
            (mkState {[ 0%nat := 3%nat; 1%nat := 2%nat ]} [])
            (results_of [candidate (JFloat 0.4) "Rosa damascena"])
            (JStr "Rosa damascena", 0.4%float) _ _ _ _ _).
  - vm_compute. reflexivity.
  - reflexivity.
  - vm_compute. reflexivity.
  - reflexivity.
  - intros i image _. exists (Some " a rose "), []. reflexivity.
Defined.

(** ** The streams of the uploads *)

Lemma prepare_files_cursor_before W organs images :
  forall idx files s out s',
    prepare_files W organs idx images files s = Ok out s' ->
    forall j, j < idx -> cursor_of s' j = cursor_of s j.
Proof.
  induction images as [|image rest IH]; intros idx files s out s' H j Hj.
  - now injection H as _ <-.
  - cbn [prepare_files] in H.
    apply bind_Ok in H as (raw & s1 & Hread & H).
    injection Hread as <- <-.
    apply bind_Ok in H as (img & s2 & H1 & H). apply lift_option_Ok in H1 as [_ ->].
    apply bind_Ok in H as (img2 & s2 & H2 & H). apply lift_option_Ok in H2 as [_ ->].
    apply bind_Ok in H as (img3 & s2 & H3 & H). apply lift_option_Ok in H3 as [_ ->].
    apply bind_Ok in H as (buf & s2 & H4 & H). apply lift_option_Ok in H4 as [_ ->].
    rewrite (IH _ _ _ _ _ H j) by lia.
    destruct s as [m l]. cbn [cursors calls].
    apply cursor_of_insert_ne. lia.
Qed.

Lemma prepare_files_exhausts W organs images :
  forall idx files s out s',
    prepare_files W organs idx images files s = Ok out s' ->
    forall i image,
      images !! i = Some image ->
      length (content image) <= cursor_of s' (idx + i).
Proof.
  induction images as [|image0 rest IH]; intros idx files s out s' H i image Hi;
    [discriminate|].
  cbn [prepare_files] in H.
  apply bind_Ok in H as (raw & s1 & Hread & H).
  injection Hread as <- <-.
  apply bind_Ok in H as (img & s2 & H1 & H). apply lift_option_Ok in H1 as [_ ->].
  apply bind_Ok in H as (img2 & s2 & H2 & H). apply lift_option_Ok in H2 as [_ ->].
  apply bind_Ok in H as (img3 & s2 & H3 & H). apply lift_option_Ok in H3 as [_ ->].
  apply bind_Ok in H as (buf & s2 & H4 & H). apply lift_option_Ok in H4 as [_ ->].
  destruct i as [|i].
  - injection Hi as <-. rewrite Nat.add_0_r.
    rewrite (prepare_files_cursor_before _ _ _ _ _ _ _ _ H idx) by lia.
    rewrite cursor_of_insert. lia.
  - change (rest !! i = Some image) in Hi.
    replace (idx + S i) with (S idx + i) by lia.
    exact (IH _ _ _ _ _ H i image Hi).
Qed.

(** X12. Once the payload is prepared every upload has been read to
    its end: a plain [read()] of any of them returns no bytes, which
    is why the captioning loop rewinds before it reads. *)
Theorem uploads_are_exhausted W organs images s files s1 i image st :
  prepare_files W organs 0 images [] s = Ok files s1 ->
  images !! i = Some image ->
  cursors st = cursors s1 ->
  exists st', file_read i image st = Ok [] st'.
Proof.
  intros Hprep Hi Hst.
  pose proof (prepare_files_exhausts _ _ _ _ _ _ _ _ Hprep i image Hi) as Hlen.
  cbn [Nat.add] in Hlen.
  unfold file_read. eexists. f_equal.
  apply drop_ge. unfold cursor_of in *. rewrite Hst. exact Hlen.
Qed.

Lemma uploads_are_exhausted_witness :
  exists st',
    file_read 1 flower_jpg (mkState {[ 0%nat := 3%nat; 1%nat := 2%nat ]} [])
    = Ok [] st'.
Proof.
  apply (uploads_are_exhausted doubtful_world (Some ["leaf"])
           [leaf_jpg; flower_jpg] initial_state doubtful_payload
           (mkState {[ 0%nat := 3%nat; 1%nat := 2%nat ]} [])).
  - vm_compute. reflexivity.
  - reflexivity.
  - reflexivity.
Defined.



(** ** The text of the captions *)

Lemma lstrip_start (s : string) : space_at_start (lstrip s) = false.
Proof.
  remember (String.length s) as len eqn:Hlen. revert s Hlen.
  induction len as [len IH] using lt_wf_ind. intros s ->.
  destruct s as [|c r]; [reflexivity|]. cbn [lstrip].
  destruct (space1 c) eqn:H1.
  { apply (IH (String.length r)); [simpl; lia|reflexivity]. }
  destruct r as [|d r'].
  { cbn [space_at_start]. now rewrite H1. }
  destruct (space2 c d) eqn:H2.
  { apply (IH (String.length r')); [simpl; lia|reflexivity]. }
  destruct r' as [|e r''].
  { cbn [space_at_start]. now rewrite H1, H2. }
  destruct (space3 c d e) eqn:H3.
  { apply (IH (String.length r'')); [simpl; lia|reflexivity]. }
  cbn [space_at_start]. now rewrite H1, H2, H3.
Qed.

Lemma rstrip_end (s : string) : space_at_end (rstrip s) = false.
Proof.
  induction s as [|c r IH]; [reflexivity|]. cbn [rstrip].
  destruct (one_space (String c (rstrip r))) eqn:H1; [reflexivity|].
  cbn [space_at_end]. now rewrite H1, IH.
Qed.

Lemma rstrip_prefix (s : string) : exists u, s = rstrip s +:+ u.
Proof.
  induction s as [|c r [u Hu]]; [now exists ""|]. cbn [rstrip].
  destruct (one_space (String c (rstrip r))).
  - now exists (String c r).
  - exists u. change (String c r = String c (rstrip r +:+ u)). now f_equal.
Qed.

Lemma space_at_start_app (p u : string) :
  space_at_start p = true -> space_at_start (p +:+ u) = true.
Proof.
  destruct p as [|c [|d [|e r]]]; cbn [space_at_start];
    rewrite ?orb_false_r; intros H; try discriminate.
  - change (space_at_start (String c u) = true).
    cbn [space_at_start]. now rewrite H.
  - change (space_at_start (String c (String d u)) = true).
    cbn [space_at_start].
    apply orb_true_iff in H as [->|H]; [reflexivity|].
    rewrite H. now rewrite orb_true_r.
  - exact H.
Qed.

Lemma strip_trimmed (s : string) : trimmed (strip s).
Proof.
  unfold trimmed, strip. split; [|apply rstrip_end].
  destruct (space_at_start (rstrip (lstrip s))) eqn:H; [|reflexivity].
  destruct (rstrip_prefix (lstrip s)) as [u Hu].
  apply (space_at_start_app _ u) in H. rewrite <- Hu in H.
  now rewrite lstrip_start in H.
Qed.

Lemma caption_text_trimmed (reply : chat_reply) (t : string) :
  caption_text reply = Some t -> trimmed t.
Proof.
  destruct reply as [[|[c|] l]|]; try discriminate; intros [= <-].
  - apply strip_trimmed.
  - split; reflexivity.
Qed.

(** X14. Every caption of a returned dict comes back trimmed: it
    neither begins nor ends with a white-space character, in the sense
    of [str.isspace], be it the stripped text of the captioning service
    or the placeholder. *)
Theorem captions_are_trimmed W E images organs no_reject s r s' caps c :
  identify_plant W E images organs no_reject s = Ok (Returned r) s' ->
  boost_captions r = Some caps ->
  c ∈ caps ->
  trimmed (cap_caption c).
Proof.
  intros H Hcaps Hc.
  apply identify_plant_Returned in H
    as (files & s1 & j & best & conf & _ & _ & _ & Hgate).
  destruct Hgate as [[_ (caps0 & Hloop & ->)]|[_ [_ ->]]]; [|discriminate].
  cbn [boost_captions] in Hcaps.
  apply caption_images_spec in Hloop as (_ & texts & Hlen & -> & Htexts).
  cbn [app] in Hcaps.
  assert (caps = zip_with mkCaption (filename <$> images) texts) as ->.
  { destruct (zip_with mkCaption (filename <$> images) texts);
      [discriminate|now injection Hcaps]. }
  apply list_elem_of_lookup in Hc as (i & Hi).
  apply lookup_zip_with_Some in Hi as (name & text & -> & Hname & Htext).
  apply list_lookup_fmap_Some in Hname as (image & -> & Himage).
  cbn [cap_caption].
  rewrite <- (Htexts i image Himage) in Htext.
  exact (caption_text_trimmed _ _ Htext).
Qed.

Lemma captions_are_trimmed_witness :
  trimmed (cap_caption (mkCaption (Some "flower.jpg") "a rose")).
Proof.
  assert (H : doubtful_run
              = Ok (Returned doubtful_result) (final_state doubtful_run))
    by (vm_compute; reflexivity).
  apply (captions_are_trimmed _ _ _ _ _ _ _ _ _ _ H eq_refl).
  apply list_elem_of_further, list_elem_of_here.
Defined.

(** ** The species *)

(** X15. The species of a returned dict is [None] when the [results]
    are missing or false, and otherwise the value stored under
    ["scientificNameWithoutAuthor"] in the [species] dict of the first
    candidate, whatever JSON value that is, or ["Unknown"] when the
    entry or the dict is missing. *)
Theorem species_is_top_name W E images organs no_reject s r s' :
  identify_plant W E images organs no_reject s = Ok (Returned r) s' ->
  exists files s1 d,
    prepare_files W organs 0 images [] s = Ok files s1 /\
    http_post W (calls s1) (plantnet_url E no_reject) files = ReplyJson (JObj d) /\
    (truthy (default JNull (d !! "results")) = false -> species r = JNull) /\
    (forall first rest,
        d !! "results" = Some (JArr (first :: rest)) ->
        exists fd sp,
          first = JObj fd /\
          default (JObj ∅) (fd !! "species") = JObj sp /\
          species r
          = default (JStr "Unknown") (sp !! "scientificNameWithoutAuthor") /\
          (forall v, sp !! "scientificNameWithoutAuthor" = Some v ->
                     species r = v)).
Proof.
  intros H.
  apply identify_plant_Returned in H
    as (files & s1 & j & best & conf & Hprep & Hreply & Htop & Hgate).
  assert (Hbest : species r = best).
  { destruct Hgate as [[_ (caps & _ & ->)]|[_ [_ ->]]]; reflexivity. }
  apply extract_top_Ok in Htop as (_ & d & -> & Hcases). cbn zeta in Hcases.
  exists files, s1, d. split; [exact Hprep|]. split; [exact Hreply|].
  rewrite Hbest. split.
  - intros Hres.
    destruct Hcases as [(_ & -> & _)|(first & rest & sp & Hr & _)];
      [reflexivity|].
    rewrite Hr in Hres. discriminate.
  - intros first rest Hres. rewrite Hres in Hcases.
    cbn [default from_option id] in Hcases.
    destruct Hcases as [(Hfalse & _)|(fd & rest' & sp & Hr & _ & Hsp & Hname)];
      [discriminate|].
    injection Hr as -> _. exists fd, sp.
    split; [reflexivity|]. split; [exact Hsp|]. split; [exact Hname|].
    intros v Hv. now rewrite Hname, Hv.
Qed.

Lemma species_is_top_name_witness :
  let run := identify_plant confident_world with_key [leaf_jpg] None false
                            initial_state in
  let r := mkResult (JStr "Rosa damascena") 0.92 "plantnet_only" None in
  run = Ok (Returned r) (final_state run) /\
  exists files s1 d,
    prepare_files confident_world None 0 [leaf_jpg] [] initial_state
    = Ok files s1 /\
    http_post confident_world (calls s1) (plantnet_url with_key false) files
    = ReplyJson (JObj d) /\
    (truthy (default JNull (d !! "results")) = false -> species r = JNull).
Proof.
  cbn zeta.
  match goal with
  | |- ?run = Ok (Returned ?r) ?s' /\ _ =>
      assert (Hrun : run = Ok (Returned r) s') by (vm_compute; reflexivity)
  end.
  split; [exact Hrun|].
  destruct (species_is_top_name _ _ _ _ _ _ _ _ Hrun)
    as (files & s1 & d & Hprep & Hreply & Hfalsy & _).
  exists files, s1, d. auto.
Defined.

(** ** The key of PlantNet *)

(** X16. An unset [PLANTNET_KEY] stops nothing: once the uploads are
    re-encoded the request is sent all the same, with the text [None]
    in the place of the key. *)
Theorem unset_key_is_sent_as_None W E images organs no_reject s files s1 :
  PLANTNET_KEY E = None ->
  prepare_files W organs 0 images [] s = Ok files s1 ->
  head (new_calls s (identify_plant W E images organs no_reject s))
  = Some (EvPost ("https://my-api.plantnet.org/v2/identify/all?api-key=None"
                  +:+ (if no_reject then "&no-reject=true" else ""))
                 files).
Proof.
  intros Hkey Hprep.
  pose proof (identify_plant_calls W E images organs no_reject s) as Hc.
  cbn zeta in Hc. rewrite Hprep in Hc.
  destruct Hc as (reqs & -> & _). cbn [head].
  unfold plantnet_url. rewrite Hkey. reflexivity.
Qed.

Lemma unset_key_is_sent_as_None_witness :
  head (new_calls initial_state
          (identify_plant confident_world (mkEnv None None) [leaf_jpg] None
                          true initial_state))
  = Some (EvPost
            "https://my-api.plantnet.org/v2/identify/all?api-key=None&no-reject=true"
            [("images", File3 (Some "leaf.jpg") ["M"; "a"; "n"]%byte
                              "image/jpeg")]).
Proof.
  apply (unset_key_is_sent_as_None confident_world (mkEnv None None)
           [leaf_jpg] None true initial_state _
           (mkState {[ 0%nat := 3%nat ]} []) eq_refl).
  vm_compute. reflexivity.
Defined.

(** ** The data URI

    [b64encode] loses nothing: the 24 bits of a group are recovered from
    its four characters, and the padding tells the length. *)

Lemma land_shifted_low (h w k : N) :
  (w < 2 ^ k)%N -> N.land (h * 2 ^ k) w = 0%N.
Proof.
  intros Hw. apply N.bits_inj. intros i.
  rewrite N.land_spec, N.bits_0.
  destruct (N.lt_ge_cases i k) as [Hlt|Hge].
  - rewrite N.mul_pow2_bits_low by exact Hlt. reflexivity.
  - apply andb_false_intro2.
    destruct (N.eq_dec w 0%N) as [->|Hnz]; [apply N.bits_0|].
    apply N.bits_above_log2.
    apply N.lt_le_trans with k; [|exact Hge].
    apply N.log2_lt_pow2; [lia|exact Hw].
Qed.

Lemma lor_shifted_low (h w k : N) :
  (w < 2 ^ k)%N -> N.lor (h * 2 ^ k) w = (h * 2 ^ k + w)%N.
Proof.
  intros Hw. pose proof (land_shifted_low h w k Hw) as Hland.
  rewrite <- N.lxor_lor by exact Hland.
  symmetry. apply N.add_nocarry_lxor. exact Hland.
Qed.

Lemma group_value (x y z : N) :
  (y < 256)%N -> (z < 256)%N ->
  N.lor (N.lor (N.shiftl x 16) (N.shiftl y 8)) z
  = (x * 65536 + y * 256 + z)%N.
Proof.
  intros Hy Hz. rewrite !N.shiftl_mul_pow2.
  rewrite (lor_shifted_low x (y * 2 ^ 8) 16)
    by (change (2 ^ 16)%N with 65536%N; change (2 ^ 8)%N with 256%N; lia).
  replace (x * 2 ^ 16 + y * 2 ^ 8)%N with ((x * 256 + y) * 2 ^ 8)%N
    by (change (2 ^ 16)%N with 65536%N; change (2 ^ 8)%N with 256%N; lia).
  rewrite (lor_shifted_low _ z 8) by exact Hz.
  change (2 ^ 8)%N with 256%N. lia.
Qed.

Lemma b64_char_mod (n : N) : b64_char n = b64_char (n mod 64).
Proof.
  unfold b64_char. do 2 f_equal. f_equal.
  change 63%N with (N.ones 6). rewrite !N.land_ones.
  change (2 ^ 6)%N with 64%N. now rewrite N.Div0.mod_mod.
Qed.

Lemma b64_codes_distinct :
  Forall (fun i : nat =>
            Forall (fun j : nat =>
                      b64_char (N.of_nat i) = b64_char (N.of_nat j) -> i = j)
                   (seq 0 64))
         (seq 0 64).
Proof. apply (bool_decide_unpack _). vm_compute. exact I. Qed.

Lemma b64_codes_not_padding :
  Forall (fun i : nat => b64_char (N.of_nat i) <> "="%char) (seq 0 64).
Proof. apply (bool_decide_unpack _). vm_compute. exact I. Qed.

Lemma b64_char_inj (m n : N) :
  b64_char m = b64_char n -> (m mod 64 = n mod 64)%N.
Proof.
  rewrite (b64_char_mod m), (b64_char_mod n). intros H.
  assert (Hm : (m mod 64 < 64)%N) by (apply N.mod_upper_bound; lia).
  assert (Hn : (n mod 64 < 64)%N) by (apply N.mod_upper_bound; lia).
  rewrite <- (N2Nat.id (m mod 64)), <- (N2Nat.id (n mod 64)) in H |- *.
  f_equal.
  pose proof b64_codes_distinct as Hd.
  rewrite Forall_forall in Hd.
  specialize (Hd (N.to_nat (m mod 64))).
  rewrite Forall_forall in Hd.
  apply Hd; [apply elem_of_seq; clear -Hm; generalize dependent (m mod 64)%N; intros; lia|apply elem_of_seq; clear -Hn; generalize dependent (n mod 64)%N; intros; lia|exact H].
Qed.

Lemma b64_char_not_padding (n : N) : b64_char n <> "="%char.
Proof.
  rewrite (b64_char_mod n).
  assert (Hn : (n mod 64 < 64)%N) by (apply N.mod_upper_bound; lia).
  rewrite <- (N2Nat.id (n mod 64)).
  pose proof b64_codes_not_padding as Hd.
  rewrite Forall_forall in Hd. apply Hd. apply elem_of_seq.
  clear -Hn. generalize dependent (n mod 64)%N. intros. lia.
Qed.

Lemma sextets_arith (n n' : N) :
  (n < 16777216)%N -> (n' < 16777216)%N ->
  ((n / 262144) mod 64 = (n' / 262144) mod 64)%N ->
  ((n / 4096) mod 64 = (n' / 4096) mod 64)%N ->
  ((n / 64) mod 64 = (n' / 64) mod 64)%N ->
  (n mod 64 = n' mod 64)%N -> n = n'.
Proof.
  intros Hn Hn'.
  change 262144%N with (64 * 64 * 64)%N. change 4096%N with (64 * 64)%N.
  rewrite <- !N.Div0.div_div.
  assert (Hsplit : forall a : N, a = (64 * (a / 64) + a mod 64)%N)
    by (intros a; apply N.div_mod').
  assert (Htop : forall a : N, (a < 16777216)%N -> (a / 64 / 64 / 64 < 64)%N).
  { intros a Ha. rewrite !N.Div0.div_div.
    apply N.Div0.div_lt_upper_bound. exact Ha. }
  pose proof (Hsplit n) as E0. pose proof (Hsplit (n / 64)%N) as E1.
  pose proof (Hsplit (n / 64 / 64)%N) as E2.
  pose proof (Hsplit n') as E0'. pose proof (Hsplit (n' / 64)%N) as E1'.
  pose proof (Hsplit (n' / 64 / 64)%N) as E2'.
  pose proof (Htop n Hn) as T. pose proof (Htop n' Hn') as T'.
  rewrite (N.mod_small _ _ T), (N.mod_small _ _ T').
  clear Hsplit Htop.
  generalize dependent (n / 64 / 64 / 64)%N. intros q3 E2 T.
  generalize dependent (n' / 64 / 64 / 64)%N. intros q3' E2' T'.
  generalize dependent ((n / 64 / 64) mod 64)%N. intros r2 E2.
  generalize dependent ((n' / 64 / 64) mod 64)%N. intros r2' E2'.
  generalize dependent (n / 64 / 64)%N. intros q2 E1 E2.
  generalize dependent (n' / 64 / 64)%N. intros q2' E1' E2'.
  generalize dependent ((n / 64) mod 64)%N. intros r1 E1.
  generalize dependent ((n' / 64) mod 64)%N. intros r1' E1'.
  generalize dependent (n / 64)%N. intros q1 E0 E1.
  generalize dependent (n' / 64)%N. intros q1' E0' E1'.
  generalize dependent (n mod 64)%N. intros r0 E0.
  generalize dependent (n' mod 64)%N. intros r0' E0'.
  intros. lia.
Qed.

Lemma pair_value (x y : N) :
  (y < 256)%N ->
  N.lor (N.shiftl x 16) (N.shiftl y 8) = (x * 65536 + y * 256)%N.
Proof.
  intros Hy. rewrite !N.shiftl_mul_pow2.
  rewrite (lor_shifted_low x (y * 2 ^ 8) 16)
    by (change (2 ^ 16)%N with 65536%N; change (2 ^ 8)%N with 256%N; lia).
  reflexivity.
Qed.

Lemma to_N_lt (a : byte) : (Byte.to_N a < 256)%N.
Proof. pose proof (Byte.to_N_bounded a). lia. Qed.

Lemma to_N_inj (a b : byte) : Byte.to_N a = Byte.to_N b -> a = b.
Proof.
  intros H. pose proof (Byte.of_to_N a) as Ha.
  rewrite H, Byte.of_to_N in Ha. now injection Ha.
Qed.

(** The characters of a group determine its 24 bits. *)
Lemma sextets_determine (n n' : N) :
  (n < 16777216)%N -> (n' < 16777216)%N ->
  b64_char (N.shiftr n 18) = b64_char (N.shiftr n' 18) ->
  b64_char (N.shiftr n 12) = b64_char (N.shiftr n' 12) ->
  ((n / 64) mod 64 = (n' / 64) mod 64)%N ->
  (n mod 64 = n' mod 64)%N ->
  n = n'.
Proof.
  intros Hn Hn' H18 H12 H6 H0.
  apply b64_char_inj in H18, H12.
  rewrite !N.shiftr_div_pow2 in H18, H12.
  exact (sextets_arith n n' Hn Hn' H18 H12 H6 H0).
Qed.

Lemma one_byte_low (x : N) :
  (((x * 65536) / 64) mod 64 = 0 /\ (x * 65536) mod 64 = 0)%N.
Proof.
  split.
  - replace (x * 65536)%N with (x * 16 * 64 * 64)%N by lia.
    rewrite N.div_mul by discriminate. apply N.Div0.mod_mul.
  - replace (x * 65536)%N with (x * 1024 * 64)%N by lia.
    apply N.Div0.mod_mul.
Qed.

Lemma two_bytes_low (x y : N) : ((x * 65536 + y * 256) mod 64 = 0)%N.
Proof.
  replace (x * 65536 + y * 256)%N with ((x * 1024 + y * 4) * 64)%N by lia.
  apply N.Div0.mod_mul.
Qed.

Lemma b64encode_inj (raw1 : list byte) :
  forall raw2, b64encode raw1 = b64encode raw2 -> raw1 = raw2.
Proof.
  remember (length raw1) as len eqn:Hlen. revert raw1 Hlen.
  induction len as [len IH] using lt_wf_ind. intros raw1 Hlen raw2.
  destruct raw1 as [|a [|b [|c r1]]]; destruct raw2 as [|a' [|b' [|c' r2]]];
    cbn [b64encode]; cbv zeta; intros H; try discriminate H;
    try reflexivity.
  all: repeat (let Hc := fresh "Hc" in injection H as Hc H).
  all: try match goal with
           | Hx : b64_char _ = "="%char |- _ =>
               now apply b64_char_not_padding in Hx
           | Hx : "="%char = b64_char _ |- _ =>
               symmetry in Hx; now apply b64_char_not_padding in Hx
           end.
  all: pose proof (to_N_lt a) as Ha; pose proof (to_N_lt a') as Ha'.
  - rewrite !N.shiftl_mul_pow2 in *. change (2 ^ 16)%N with 65536%N in *.
    destruct (one_byte_low (to_N a)) as [L6 L0].
    destruct (one_byte_low (to_N a')) as [L6' L0'].
    assert (Hn : (to_N a * 65536 = to_N a' * 65536)%N).
    { apply sextets_determine; try assumption; try lia; congruence. }
    f_equal. apply to_N_inj. lia.
  - pose proof (to_N_lt b) as Hb. pose proof (to_N_lt b') as Hb'.
    rewrite !pair_value in * by assumption.
    assert (Hn : (to_N a * 65536 + to_N b * 256
                  = to_N a' * 65536 + to_N b' * 256)%N).
    { apply sextets_determine; try assumption; try lia.
      - match goal with
        | Hx : b64_char (N.shiftr _ 6) = _ |- _ =>
            apply b64_char_inj in Hx; rewrite !N.shiftr_div_pow2 in Hx;
            exact Hx
        end.
      - now rewrite !two_bytes_low. }
    assert (to_N a = to_N a' /\ to_N b = to_N b') as [Ea Eb] by lia.
    apply to_N_inj in Ea, Eb. now subst.
  - pose proof (to_N_lt b) as Hb. pose proof (to_N_lt b') as Hb'.
    pose proof (to_N_lt c) as Hc'. pose proof (to_N_lt c') as Hc''.
    rewrite !group_value in * by assumption.
    assert (Hn : (to_N a * 65536 + to_N b * 256 + to_N c
                  = to_N a' * 65536 + to_N b' * 256 + to_N c')%N).
    { apply sextets_determine; try assumption; try lia.
      - match goal with
        | Hx : b64_char (N.shiftr _ 6) = _ |- _ =>
            apply b64_char_inj in Hx; rewrite !N.shiftr_div_pow2 in Hx;
            exact Hx
        end.
      - match goal with
        | Hx : b64_char (_ + _ + _)%N = _ |- _ =>
            apply b64_char_inj in Hx; exact Hx
        end. }
    assert (to_N a = to_N a' /\ to_N b = to_N b' /\ to_N c = to_N c')
      as (Ea & Eb & Ec) by lia.
    apply to_N_inj in Ea, Eb, Ec. subst.
    do 3 f_equal.
    apply (IH (length r1)); [simpl; lia|reflexivity|].
    match goal with Hx : b64encode _ = b64encode _ |- _ => exact Hx end.
Qed.

(** X17. The captioning request identifies the bytes it carries: two
    uploads are sent the same request only when their bytes are the
    same, the data URI being a base64 text from which the bytes can be
    recovered. *)
Theorem caption_request_identifies_upload (raw1 raw2 : list byte) :
  vision_request raw1 = vision_request raw2 -> raw1 = raw2.
Proof.
  intros H. apply b64encode_inj.
  assert (Hurl : image_url (vision_request raw1) = image_url (vision_request raw2))
    by now rewrite H.
  cbn in Hurl. now simplify_eq.
Qed.

Lemma caption_request_identifies_upload_witness :
  vision_request (content leaf_jpg) <> vision_request (content flower_jpg).
Proof.
  intros H. apply caption_request_identifies_upload in H. discriminate H.
Defined.

(** ** The normalised image *)

Local Open Scope Z_scope.

Lemma floor_bounds n d : 0 < d -> d * (n / d) <= n < d * (n / d) + d.
Proof.
  intros Hd. pose proof (Z.mul_div_le n d Hd).
  pose proof (Z.mul_succ_div_gt n d Hd). lia.
Qed.

Lemma ceil_bounds n d : 0 < d -> d * ceil_div n d - d < n <= d * ceil_div n d.
Proof.
  intros Hd. unfold ceil_div. pose proof (floor_bounds (- n) d Hd). lia.
Qed.

(** Either rounding of [n / d], or 1 in the place of 0, stays within
    one unit of the quotient and below any larger whole number. *)
Lemma rounded_fits (n d pick bound limit : Z) :
  1 <= n -> 1 <= d -> 1 <= bound -> 1 <= limit ->
  n <= bound * d -> n < limit * d ->
  pick = n / d \/ pick = ceil_div n d ->
  let r := Z.max pick 1 in
  1 <= r <= bound /\ r <= limit /\ Z.abs (r * d - n) < d.
Proof.
  intros Hn Hd Hbound Hlimit Hnb Hnl Hpick. cbn zeta.
  pose proof (floor_bounds n d ltac:(lia)) as Hlo.
  pose proof (ceil_bounds n d ltac:(lia)) as Hhi.
  assert (0 <= n / d) by (apply Z.div_pos; lia).
  assert (n / d <= bound) by nia.
  assert (n / d < limit) by nia.
  assert (1 <= ceil_div n d) by nia.
  assert (ceil_div n d <= bound) by nia.
  assert (ceil_div n d <= limit) by nia.
  destruct Hpick as [->| ->].
  - destruct (Z.max_spec (n / d) 1) as [[Hlt ->]|[Hge ->]]; [|nia].
    assert (n / d = 0) as Hz by lia. rewrite Hz in Hlo. lia.
  - rewrite Z.max_l by lia. nia.
Qed.

Lemma thumbnail_size_fits w h x y :
  1 <= w -> 1 <= h -> 1 <= x -> 1 <= y ->
  let s := thumbnail_size (w, h) (x, y) in
  (1 <= s.1 <= x /\ 1 <= s.2 <= y) /\
  (s.1 <= w /\ s.2 <= h) /\
  (w <= x -> h <= y -> s = (w, h)) /\
  (s = (w, h) \/
   (s.2 = y /\ Z.abs (s.1 * h - w * y) < h) \/
   (s.1 = x /\ Z.abs (s.2 * w - h * x) < w)).
Proof.
  intros Hw Hh Hx Hy. cbn zeta. unfold thumbnail_size.
  destruct (Z.leb_spec w x) as [Hwx|Hwx]; destruct (Z.leb_spec h y) as [Hhy|Hhy];
    cbn [andb].
  1: { cbn [fst snd]. repeat split; auto; lia. }
  all: destruct (Z.leb_spec (w * y) (x * h)) as [Hb|Hb].
  all: try (exfalso; nia).
  all: cbn [fst snd].
  all: match goal with
       | Hle : _ * _ <= _ * _ |- context [Z.max ?p 1] =>
           destruct (rounded_fits (y * w) h p x w) as (R1 & R2 & R3);
           [nia|lia|lia|lia|lia|nia
           |destruct (Z.abs _ <=? Z.abs _); auto|]
       | Hlt : _ * _ < _ * _ |- context [Z.max ?p 1] =>
           destruct (rounded_fits (x * h) w p y h) as (R1 & R2 & R3);
           [nia|lia|lia|lia|lia|nia
           |destruct (_ || _); auto|]
       end.
  all: repeat split; try lia.
  all: try (right; left; split; [reflexivity|];
            replace (w * y) with (y * w) by lia; exact R3).
  all: try (right; right; split; [reflexivity|];
            replace (h * x) with (x * h) by lia; exact R3).
Qed.

Local Close Scope Z_scope.

(** C6. With Pillow as modelled, every upload that is sent to PlantNet
    was decoded, and what is sent for it is the file saved as ["JPEG"]
    at quality 90 of an image in mode ["RGB"] whose two dimensions are
    at most 1280 and at most those of the upload; an upload already
    within 1280 by 1280 keeps its size, and otherwise one side is 1280
    and the other is within one pixel of the proportional length. *)
Theorem normalized_image_fits decode encode reply answers parse E images
    organs no_reject s url files :
  let W := pillow_world decode encode reply answers parse in
  cursors s = ∅ ->
  (forall raw p, decode raw = Some p ->
                 (1 <= pic_width p)%Z /\ (1 <= pic_height p)%Z) ->
  EvPost url files ∈ new_calls s (identify_plant W E images organs no_reject s) ->
  forall i image,
    images !! i = Some image ->
    exists p q buf,
      decode (content image) = Some p /\
      encode q "JPEG" 90%Z = Some buf /\
      ("images", File3 (filename image) buf "image/jpeg") ∈ files /\
      pic_mode q = "RGB" /\
      ((pic_width q <= 1280)%Z /\ (pic_height q <= 1280)%Z) /\
      ((pic_width q <= pic_width p)%Z /\ (pic_height q <= pic_height p)%Z) /\
      ((pic_width p <= 1280)%Z -> (pic_height p <= 1280)%Z ->
       pic_width q = pic_width p /\ pic_height q = pic_height p) /\
      ((pic_width q = pic_width p /\ pic_height q = pic_height p) \/
       (pic_height q = 1280%Z /\
        (Z.abs (pic_width q * pic_height p - pic_width p * 1280)
         < pic_height p)%Z) \/
       (pic_width q = 1280%Z /\
        (Z.abs (pic_height q * pic_width p - pic_height p * 1280)
         < pic_width p)%Z)).
Proof.
  intros W Hfresh Hpos Hin i image Hi.
  pose proof (identify_plant_calls W E images organs no_reject s) as Hc.
  cbn zeta in Hc.
  destruct (prepare_files W organs 0 images [] s) as [files0 s1|e s1] eqn:Hprep.
  2:{ rewrite Hc in Hin. inversion Hin. }
  destruct Hc as (reqs & Hnew & _). rewrite Hnew in Hin.
  apply elem_of_cons in Hin as [Heq|Hin].
  2:{ apply list_elem_of_fmap in Hin as (req & Hreq & _). discriminate. }
  injection Heq as -> ->.
  destruct (prepare_files_normalizes _ _ _ _ _ _ _ _ Hprep i image Hi)
    as (p & p2 & q & buf & Hopen & Hconv & Hthumb & Hsave & Hpart).
  unfold cursor_of in Hopen. rewrite Hfresh, lookup_empty in Hopen.
  change (decode (content image) = Some p) in Hopen.
  change (pil_convert p "RGB" = Some p2) in Hconv.
  change (pil_thumbnail p2 (1280, 1280)%Z = Some q) in Hthumb.
  change (encode q "JPEG" 90%Z = Some buf) in Hsave.
  injection Hconv as <-. injection Hthumb as <-.
  cbn [pic_width pic_height pic_mode].
  destruct (Hpos _ _ Hopen) as [Hw Hh].
  destruct (thumbnail_size_fits (pic_width p) (pic_height p) 1280 1280
              Hw Hh ltac:(lia) ltac:(lia)) as ((B1 & B2) & (U1 & U2) & Hin & Hasp).
  cbn zeta in B1, B2, U1, U2, Hin, Hasp.
  exists p, (mkPicture
               (thumbnail_size (pic_width p, pic_height p) (1280, 1280)%Z).1
               (thumbnail_size (pic_width p, pic_height p) (1280, 1280)%Z).2
               "RGB"), buf.
  cbn [pic_width pic_height pic_mode].
  split; [exact Hopen|]. split; [exact Hsave|]. split; [exact Hpart|].
  split; [reflexivity|]. split; [lia|]. split; [lia|]. split.
  - intros H1 H2. rewrite (Hin H1 H2). auto.
  - destruct Hasp as [Hsame|[[E1 A1]|[E2 A2]]].
    + left. rewrite Hsame. auto.
    + right. left. auto.
    + right. right. auto.
Qed.

Lemma normalized_image_fits_witness :
  exists p q buf,
    Some (mkPicture 4000 3000 "RGBA") = Some p /\
    Some ["J"; "P"; "G"]%byte = Some buf /\
    pic_mode q = "RGB" /\
    ((pic_width q <= 1280)%Z /\ (pic_height q <= 1280)%Z) /\
    ((pic_width q <= pic_width p)%Z /\ (pic_height q <= pic_height p)%Z).
Proof.
  destruct (normalized_image_fits
              (fun _ => Some (mkPicture 4000 3000 "RGBA"))
              (fun _ _ _ => Some ["J"; "P"; "G"]%byte)
              (fun _ _ _ => ReplyJson (results_of []))
              (always None) (fun _ => None)
              without_key [leaf_jpg] None false initial_state
              (plantnet_url without_key false)
              [("images", File3 (Some "leaf.jpg") ["J"; "P"; "G"]%byte
                                "image/jpeg")]
              eq_refl) with (i := 0%nat) (image := leaf_jpg)
    as (p & q & buf & Hp & Hbuf & _ & Hmode & Hbox & Hup & _).
  - intros raw p [= <-]. cbn [pic_width pic_height]. lia.
  - vm_compute. apply list_elem_of_here.
  - reflexivity.
  - exists p, q, buf. auto.
Defined.
